(** * CSVReader: a shallow embedding of [main.cpp]

    The program keeps a table of strings read from a comma separated file
    ([CSVReader::load], [CSVReader::parseRow]) and computes one aggregate over
    it ([CSVReader::calculateTotalRevenue]).  The embedding follows the C++
    text: [std::string] is [string] (a sequence of 8-bit characters),
    [std::vector] is [list], the two input streams are a record with the
    unread characters and the [eofbit]/[failbit] flags, [double] is an IEEE 754
    binary64 value ([spec_float] at precision 53, [emax] 1024), [int] is a [Z]
    in the 32-bit range, the files on disk are a finite map from path to file
    and the console is the list of the output statements executed so far.

    What the C++ text leaves to its environment is fixed as follows.  The
    standard library is libstdc++ on glibc: [strtod] rounds correctly and
    reports [ERANGE] for tiny inexact results, [what()] of the exceptions of
    [std::stoi] and [std::stod] is the name of the function, and [double]
    expressions are evaluated in binary64, one rounding for each operation.
    Reading an open file does not fail before its end, a file that
    [createMockFile] writes can be read back, and
    [std::filesystem::exists] answers without throwing.  The sign of a NaN
    is not followed through the arithmetic, so the text written for a total
    that is a NaN ([nan] or [-nan]) is outside the model: the general
    statements give the text of a total that is not a NaN. *)

From Stdlib Require Import ZArith List Ascii String Bool Lia.
From Stdlib Require Import Floats DecimalString.
From stdpp Require Import base option gmap strings.

Import ListNotations.
Local Open Scope string_scope.
Local Open Scope Z_scope.
Local Open Scope list_scope.

(** ** Input streams ([std::stringstream], [std::ifstream]) *)

Module Stream.

(** The part of [std::basic_istream] the program observes: the characters
    not yet extracted and two state flags ([badbit] is never raised by the
    in-memory reads modelled here). *)
Record istream := mk_istream {
  buf : string;
  eofbit : bool;
  failbit : bool
}.

Definition open (contents : string) : istream :=
  {| buf := contents; eofbit := false; failbit := false |}.

Definition good (s : istream) : bool := negb (eofbit s) && negb (failbit s).

(** [operator bool]: the stream converts to [true] unless [fail()]. *)
Definition ok (s : istream) : bool := negb (failbit s).

(** The extraction loop of [std::getline]: characters are moved to the
    result until the end of the buffer is met ([true]: [eofbit]) or the
    delimiter is met; the delimiter is extracted and dropped. *)
Fixpoint extract (delim : ascii) (b : string) : string * string * bool :=
  match b with
  | EmptyString => (EmptyString, EmptyString, true)
  | String c rest =>
      if Ascii.eqb c delim then (EmptyString, rest, false)
      else let '(cell, rest', e) := extract delim rest in
           (String c cell, rest', e)
  end.

(** [std::getline(is, str, delim)].  When the stream is not [good] the
    sentry raises [failbit] and [str] is left alone.  Otherwise [str] is
    erased and filled by [extract]; [failbit] is raised when nothing at
    all was extracted, which happens exactly on an exhausted buffer. *)
Definition getline (s : istream) (str : string) (delim : ascii)
  : istream * string :=
  if good s then
    let '(cell, rest, e) := extract delim (buf s) in
    ({| buf := rest; eofbit := e;
        failbit := match buf s with EmptyString => true | _ => false end |},
     cell)
  else ({| buf := buf s; eofbit := eofbit s; failbit := true |}, str).

End Stream.

(** ** [CSVReader::parseRow] *)

Definition COMMA : ascii := ",".
Definition LF : ascii := "010".

(** [while (std::getline(ss, cell, ',')) fields.push_back(cell);]
    [None] is the loop still running when the fuel is used up. *)
Fixpoint parseRow_loop (fuel : nat) (ss : Stream.istream) (cell : string)
  (fields : list string) : option (list string) :=
  match fuel with
  | O => None
  | S fuel' =>
      let '(ss', cell') := Stream.getline ss cell COMMA in
      if Stream.ok ss' then parseRow_loop fuel' ss' cell' (fields ++ [cell'])
      else Some fields
  end.

(** Every turn of the loop but the last extracts a character, so one turn
    more than the length of the line is enough ([parseRow_loop_spec]). *)
Definition parseRow_fuel (line : string) : nat := S (String.length line).

Definition parseRow (line : string) : list string :=
  default [] (parseRow_loop (parseRow_fuel line) (Stream.open line) EmptyString []).

(** ** The C library under [std::stoi] and [std::stod]

    libstdc++ implements [std::stoi(str)] as [strtol(str.c_str(), &end, 10)]
    and [std::stod(str)] as [strtod(str.c_str(), &end)]; both throw
    [std::invalid_argument] when no character was converted and
    [std::out_of_range] when the C function reports [ERANGE] (for [stoi] also
    when the [long] does not fit an [int]).  The text of [what()] is the name
    of the function.  The program runs in the "C" locale. *)

Inductive exception :=
  | invalid_argument (what_arg : string)
  | out_of_range (what_arg : string).

Definition what (e : exception) : string :=
  match e with invalid_argument w => w | out_of_range w => w end.

(** A piece of C++ either completes with a value, leaves by an exception, or
    has undefined behaviour (here: [operator[]] outside the vector). *)
Inductive exec (A : Type) :=
  | Done (a : A)
  | Raise (e : exception)
  | Undefined.
Arguments Done {A} a.
Arguments Raise {A} e.
Arguments Undefined {A}.

(** Sequencing: the first statement that throws or goes wrong ends the
    block.  With this instance [x ← m; k] is stdpp's notation for it. *)
#[global] Instance exec_bind : MBind exec := fun A B k m =>
  match m with
  | Done a => k a
  | Raise e => Raise e
  | Undefined => Undefined
  end.

Abbreviation double := spec_float.

Module CLib.

Definition code (c : ascii) : Z := Z.of_N (N_of_ascii c).

(** [isspace] in the "C" locale: space, and the controls 9 to 13. *)
Definition isspace (c : ascii) : bool :=
  (code c =? 32) || ((9 <=? code c) && (code c <=? 13)).

Definition dec_digit (c : ascii) : option Z :=
  if (48 <=? code c) && (code c <=? 57) then Some (code c - 48) else None.

Definition hex_digit (c : ascii) : option Z :=
  if (48 <=? code c) && (code c <=? 57) then Some (code c - 48)
  else if (97 <=? code c) && (code c <=? 102) then Some (code c - 87)
  else if (65 <=? code c) && (code c <=? 70) then Some (code c - 55)
  else None.

Definition tolower (c : ascii) : ascii :=
  if (65 <=? code c) && (code c <=? 90)
  then ascii_of_N (Z.to_N (code c + 32)) else c.

Fixpoint skip_space (s : string) : string :=
  match s with
  | String c rest => if isspace c then skip_space rest else s
  | EmptyString => s
  end.

(** An optional [+] or [-]: [true] for a minus sign. *)
Definition sign (s : string) : bool * string :=
  match s with
  | String c rest =>
      if Ascii.eqb c "-" then (true, rest)
      else if Ascii.eqb c "+" then (false, rest)
      else (false, s)
  | EmptyString => (false, s)
  end.

(** The longest run of digits at the head of [s], read in [base] on top
    of [acc]; the number of digits read; and what follows them. *)
Fixpoint digits (val : ascii -> option Z) (base : Z) (s : string)
  (acc : Z) (count : nat) : Z * nat * string :=
  match s with
  | String c rest =>
      match val c with
      | Some d => digits val base rest (acc * base + d) (S count)
      | None => (acc, count, s)
      end
  | EmptyString => (acc, count, s)
  end.

(** Does [s] start with the lower-case word [w], in either case? *)
Fixpoint starts_with_ci (w s : string) : bool :=
  match w, s with
  | EmptyString, _ => true
  | String a w', String c s' => Ascii.eqb a (tolower c) && starts_with_ci w' s'
  | String _ _, EmptyString => false
  end.

Definition INT_MIN : Z := - 2 ^ 31.
Definition INT_MAX : Z := 2 ^ 31 - 1.

(** [std::stoi]: white space, a sign, decimal digits; what follows the
    digits is ignored. *)
Definition stoi (str : string) : exec Z :=
  let '(neg, s) := sign (skip_space str) in
  let '(v, n, _) := digits dec_digit 10 s 0 0 in
  match n with
  | O => Raise (invalid_argument "stoi")
  | S _ =>
      let v := if neg then - v else v in
      if (INT_MIN <=? v) && (v <=? INT_MAX) then Done v
      else Raise (out_of_range "stoi")
  end.

(** *** [strtod] *)

Definition prec : Z := 53.
Definition emax : Z := 1024.

(** The magnitude that the subject sequence denotes, before rounding. *)
Inductive subject :=
  | NoConversion
  | Infinity
  | NotANumber
  | Fraction (num den : Z).

(** [m * base ^ e] as a fraction. *)
Definition scaled (m base e : Z) : subject :=
  if 0 <=? e then Fraction (m * base ^ e) 1 else Fraction m (base ^ (- e)).

(** An exponent part: the marker [mark] (in either case), an optional
    sign and at least one decimal digit; anything else is no exponent. *)
Definition exponent (mark : ascii) (s : string) : Z :=
  match s with
  | String c rest =>
      if Ascii.eqb (tolower c) mark then
        let '(neg, s') := sign rest in
        let '(e, n, _) := digits dec_digit 10 s' 0 0 in
        match n with O => 0 | S _ => if neg then - e else e end
      else 0
  | EmptyString => 0
  end.

(** Digits, optionally with one radix point among them; at least one digit
    is required.  The result is the integer the digits spell, the number of
    them after the point, and the rest of the input. *)
Definition mantissa (val : ascii -> option Z) (base : Z) (s : string)
  : option (Z * nat * string) :=
  let '(m1, n1, r1) := digits val base s 0 0 in
  let '(m2, n2, r2) :=
    match r1 with
    | String c r =>
        if Ascii.eqb c "." then digits val base r m1 0 else (m1, O, r1)
    | EmptyString => (m1, O, r1)
    end in
  match (n1 + n2)%nat with
  | O => None
  | S _ => Some (m2, n2, r2)
  end.

Definition decimal_subject (s : string) : subject :=
  match mantissa dec_digit 10 s with
  | Some (m, n, r) => scaled m 10 (exponent "e" r - Z.of_nat n)
  | None => NoConversion
  end.

(** [0x] or [0X] followed by a hexadecimal mantissa and an optional
    binary exponent [p]; a [0x] with no hexadecimal digit after it is
    read as the decimal [0]. *)
Definition hex_subject (s : string) : option subject :=
  match s with
  | String z (String x r) =>
      if Ascii.eqb z "0" && Ascii.eqb (tolower x) "x" then
        match mantissa hex_digit 16 r with
        | Some (m, n, r') => Some (scaled m 2 (exponent "p" r' - 4 * Z.of_nat n))
        | None => None
        end
      else None
  | _ => None
  end.

Definition subject_of (s : string) : subject :=
  if starts_with_ci "inf" s then Infinity
  else if starts_with_ci "nan" s then NotANumber
  else match hex_subject s with
       | Some q => q
       | None => decimal_subject s
       end.

(** The fraction [num / den] rounded to nearest, ties to even, in the
    format of precision [prec] and exponent bound [em]. *)
Definition round_fraction (em : Z) (neg : bool) (num den : Z) : double :=
  match num, den with
  | Zpos n, Zpos d => SFdiv prec em (S754_finite neg n 0) (S754_finite false d 0)
  | Z0, _ => S754_zero neg
  | _, _ => S754_nan
  end.

(** Is the finite [r] exactly [num / den] in magnitude? *)
Definition is_exact (r : double) (num den : Z) : bool :=
  match r with
  | S754_zero _ => num =? 0
  | S754_finite _ m e =>
      if 0 <=? e then Zpos m * 2 ^ e * den =? num
      else Zpos m * den =? num * 2 ^ (- e)
  | _ => false
  end.

(** Tininess is detected after rounding: the value rounded to [prec] bits
    with an exponent range wide enough not to matter is below the least
    normal number [2 ^ (-1022)]. *)
Definition is_tiny (num den : Z) : bool :=
  match round_fraction (2 * emax) false num den with
  | S754_zero _ => true
  | S754_finite _ _ e => e <? 3 - emax - prec
  | _ => false
  end.

(** [std::stod]: [ERANGE] on overflow, and on a result that is tiny and
    not exact (the behaviour of glibc). *)
Definition stod (str : string) : exec double :=
  let '(neg, s) := sign (skip_space str) in
  match subject_of s with
  | NoConversion => Raise (invalid_argument "stod")
  | Infinity => Done (S754_infinity neg)
  | NotANumber => Done S754_nan
  | Fraction num den =>
      match round_fraction emax neg num den with
      | S754_infinity _ => Raise (out_of_range "stod")
      | r => if is_tiny num den && negb (is_exact r num den)
             then Raise (out_of_range "stod") else Done r
      end
  end.

End CLib.

(** ** [double] arithmetic and output *)

Definition double_of_int (z : Z) : double :=
  binary_normalize CLib.prec CLib.emax z 0 false.

Definition dmul (x y : double) : double := SFmul CLib.prec CLib.emax x y.
Definition dadd (x y : double) : double := SFadd CLib.prec CLib.emax x y.

Definition zero : double := S754_zero false.

Definition decimal_of_Z (z : Z) : string :=
  NilZero.string_of_uint (N.to_uint (Z.to_N z)).

(** The nearest integer to [m * 2 ^ e * 100], ties to even. *)
Definition hundredths (m : positive) (e : Z) : Z :=
  if 0 <=? e then Zpos m * 2 ^ e * 100
  else
    let d := 2 ^ (- e) in
    let q := (Zpos m * 100) / d in
    let r := (Zpos m * 100) mod d in
    match 2 * r ?= d with
    | Lt => q
    | Gt => q + 1
    | Eq => if Z.even q then q else q + 1
    end.

(** [os << std::fixed << std::setprecision(2) << x]: the exact value
    rounded to two decimals.  A NaN has no sign in this model, and the
    program writes [nan] or [-nan] after the sign of the NaN: the text given
    here for a NaN is not relied on. *)
Definition fixed2 (x : double) : string :=
  let sgn (s : bool) := if s then "-" else EmptyString in
  match x with
  | S754_nan => "nan"
  | S754_infinity s => sgn s +:+ "inf"
  | S754_zero s => sgn s +:+ "0.00"
  | S754_finite s m e =>
      let h := hundredths m e in
      sgn s +:+ decimal_of_Z (h / 100) +:+ "."
        +:+ decimal_of_Z (h mod 100 / 10) +:+ decimal_of_Z (h mod 10)
  end.

(** ** The state of the program *)

(** A path names a file that can be opened for reading, or one that is there
    but cannot be. *)
Inductive file :=
  | Readable (contents : string)
  | Unreadable.

Inductive ostream := Cout | Cerr.

(** The two members of [class CSVReader]. *)
Record CSVReader := mk_reader {
  data : list (list string);
  headers : list string
}.

(** The reader, the files it can see, whether [std::ofstream] manages to
    create the mock file, and what has been written to the console, one entry
    for each output statement. *)
Record State := mk_state {
  files : gmap string file;
  mock_creatable : bool;
  reader : CSVReader;
  console : list (ostream * string)
}.

Definition new_reader : CSVReader := {| data := []; headers := [] |}.

Definition print (o : ostream) (text : string) (st : State) : State :=
  {| files := files st; mock_creatable := mock_creatable st;
     reader := reader st; console := console st ++ [(o, text)] |}.

Definition set_reader (r : CSVReader) (st : State) : State :=
  {| files := files st; mock_creatable := mock_creatable st;
     reader := r; console := console st |}.

Definition nl : string := String LF EmptyString.

Definition MOCK_FILENAME : string := "data.csv".

Definition mock_contents : string :=
  "ItemID,Category,Price,UnitsSold,Location" +:+ nl +:+
  "101,Electronics,49.99,150,East" +:+ nl +:+
  "102,Books,19.50,300,West" +:+ nl +:+
  "103,Electronics,129.00,80,North" +:+ nl +:+
  "104,Clothing,35.75,220,East" +:+ nl +:+
  "105,Books,15.00,450,South" +:+ nl.

(** [CSVReader::createMockFile] *)
Definition createMockFile (st : State) : State :=
  match files st !! MOCK_FILENAME with
  | None =>
      if mock_creatable st then
        print Cout ("[INFO] Created mock file '" +:+ MOCK_FILENAME
                      +:+ "' for demonstration." +:+ nl)
          {| files := <[MOCK_FILENAME := Readable mock_contents]> (files st);
             mock_creatable := mock_creatable st;
             reader := reader st; console := console st |}
      else print Cerr ("[ERROR] Could not create mock file." +:+ nl) st
  | Some _ =>
      print Cerr ("[INFO] " +:+ MOCK_FILENAME
                    +:+ " Already exists it will not be created." +:+ nl) st
  end.

(** ** [CSVReader::load] *)

Definition is_empty (s : string) : bool :=
  match s with EmptyString => true | _ => false end.

(** The body of the loop for one line that was read. *)
Definition load_line (line : string) (is_header : bool) (r : CSVReader)
  : bool * CSVReader :=
  if is_empty line then (is_header, r)
  else
    let row_fields := parseRow line in
    if is_header
    then (false, {| data := data r; headers := row_fields |})
    else (is_header, {| data := data r ++ [row_fields]; headers := headers r |}).

(** [while (std::getline(ifs, line)) { ... }] *)
Fixpoint load_loop (fuel : nat) (ifs : Stream.istream) (line : string)
  (is_header : bool) (r : CSVReader) : option CSVReader :=
  match fuel with
  | O => None
  | S fuel' =>
      let '(ifs', line') := Stream.getline ifs line LF in
      if Stream.ok ifs' then
        let '(is_header', r') := load_line line' is_header r in
        load_loop fuel' ifs' line' is_header' r'
      else Some r
  end.

Definition load_fuel (contents : string) : nat := S (String.length contents).

Definition decimal_of_nat (n : nat) : string :=
  NilZero.string_of_uint (Nat.to_uint n).

(** [std::ifstream ifs(filename)]: the contents when [ifs.is_open()]. *)
Definition open_for_reading (st : State) (filename : string) : option string :=
  match files st !! filename with
  | Some (Readable contents) => Some contents
  | _ => None
  end.

(** The result is the [bool] that [load] returns and the state it leaves. *)
Definition load (filename : string) (st : State) : bool * State :=
  let st := createMockFile st in
  match open_for_reading st filename with
  | Some contents =>
      let r := default (reader st)
                 (load_loop (load_fuel contents) (Stream.open contents)
                    EmptyString true (reader st)) in
      (true,
       print Cout ("[SUCCESS] Loaded " +:+ decimal_of_nat (length (data r))
                     +:+ " data rows from " +:+ filename +:+ "." +:+ nl)
         (set_reader r st))
  | None =>
      (false,
       print Cerr ("[ERROR] Failed to open file: " +:+ filename +:+ nl) st)
  end.

(** ** [CSVReader::calculateTotalRevenue] *)

(** [std::find(v.begin(), v.end(), x) - v.begin()]: the position of the first
    element equal to [x], the size of the vector when there is none. *)
Fixpoint find (v : list string) (x : string) : nat :=
  match v with
  | [] => O
  | h :: t => if String.eqb h x then O else S (find t x)
  end.

(** The conversion of a [std::ptrdiff_t] to [int]. *)
Definition to_int (z : Z) : Z := (z + 2 ^ 31) mod 2 ^ 32 - 2 ^ 31.

(** [row[i]] with an [int] index: [std::vector::operator[]] does not check
    its argument, and outside the vector its behaviour is undefined. *)
Definition vec_index (row : list string) (i : Z) : exec string :=
  if 0 <=? i then
    match row !! Z.to_nat i with
    | Some cell => Done cell
    | None => Undefined
    end
  else Undefined.

(** The two conversions and the product inside the [try] block. *)
Definition row_revenue (price_idx units_idx : Z) (row : list string)
  : exec double :=
  price_cell ← vec_index row price_idx;
  price ← CLib.stod price_cell;
  units_cell ← vec_index row units_idx;
  units ← CLib.stoi units_cell;
  Done (dmul price (double_of_int units)).

Definition warning (e : exception) : ostream * string :=
  (Cerr, "[WARNING] Skipping row due to parsing error: " +:+ what e +:+ nl).

(** [for (const auto& row : data) { try { ... } catch (...) { ... } }] on the
    running total and the console. *)
Fixpoint revenue_loop (price_idx units_idx : Z) (rows : list (list string))
  (total_revenue : double) (out : list (ostream * string))
  : exec (double * list (ostream * string)) :=
  match rows with
  | [] => Done (total_revenue, out)
  | row :: rows' =>
      match row_revenue price_idx units_idx row with
      | Done v =>
          revenue_loop price_idx units_idx rows' (dadd total_revenue v) out
      | Raise e =>
          revenue_loop price_idx units_idx rows' total_revenue (out ++ [warning e])
      | Undefined => Undefined
      end
  end.

Definition no_data_notice : ostream * string :=
  (Cout, "[INFO] Cannot calculate revenue: no data loaded." +:+ nl).

Definition missing_column_error : ostream * string :=
  (Cerr, "[ERROR] Could not find 'Price' or 'UnitsSold' columns for analysis." +:+ nl).

Definition report (total_revenue : double) : list (ostream * string) :=
  [ (Cout, "--- Analysis Result ---" +:+ nl);
    (Cout, "Total Estimated Revenue: $" +:+ fixed2 total_revenue +:+ nl +:+ nl) ].

Definition with_console (out : list (ostream * string)) (st : State) : State :=
  {| files := files st; mock_creatable := mock_creatable st;
     reader := reader st; console := out |}.

(** The method is [const]: it reads the reader and writes to the console. *)
Definition calculateTotalRevenue (st : State) : exec State :=
  let r := reader st in
  if bool_decide (data r = []) then
    Done (with_console (console st ++ [no_data_notice]) st)
  else
    let price_it := find (headers r) "Price" in
    let units_it := find (headers r) "UnitsSold" in
    if (price_it =? length (headers r))%nat || (units_it =? length (headers r))%nat
    then Done (with_console (console st ++ [missing_column_error]) st)
    else
      let price_idx := to_int (Z.of_nat price_it) in
      let units_idx := to_int (Z.of_nat units_it) in
      '(total_revenue, out) ← revenue_loop price_idx units_idx (data r) zero (console st);
      Done (with_console (out ++ report total_revenue) st).

(** ** Reference notions used to state the properties *)

(** The textbook split of [s] at every [delim]: a text with [k] delimiters
    has [k + 1] pieces, some of which may be empty. *)
Fixpoint split_on (delim : ascii) (s : string) : list string :=
  match s with
  | EmptyString => [EmptyString]
  | String c rest =>
      if Ascii.eqb c delim then EmptyString :: split_on delim rest
      else match split_on delim rest with
           | piece :: pieces => String c piece :: pieces
           | [] => [String c EmptyString]
           end
  end.

(** The pieces put back together with [delim] between them. *)
Fixpoint join (delim : ascii) (pieces : list string) : string :=
  match pieces with
  | [] => EmptyString
  | [piece] => piece
  | piece :: pieces' => piece +:+ String delim (join delim pieces')
  end.

(** A list of pieces without its last element when that one is empty. *)
Fixpoint drop_trailing_empty (pieces : list string) : list string :=
  match pieces with
  | [] => []
  | [piece] => if is_empty piece then [] else [piece]
  | piece :: pieces' => piece :: drop_trailing_empty pieces'
  end.

(** The lines of a text: the text cut at every line feed, where a line feed
    at the very end closes the last line rather than opening an empty one. *)
Definition text_lines (contents : string) : list string :=
  drop_trailing_empty (split_on LF contents).

Definition non_empty_lines (contents : string) : list string :=
  List.filter (fun l => negb (is_empty l)) (text_lines contents).

(** A text written line by line, a line feed after each. *)
Fixpoint unlines (lines : list string) : string :=
  match lines with
  | [] => EmptyString
  | l :: lines' => l +:+ String LF (unlines lines')
  end.

(** The character occurs in the string. *)
Fixpoint contains (c : ascii) (s : string) : bool :=
  match s with
  | EmptyString => false
  | String a rest => Ascii.eqb a c || contains c rest
  end.

(** [k] commas in a row. *)
Fixpoint commas (k : nat) : string :=
  match k with
  | O => EmptyString
  | S k' => String COMMA (commas k')
  end.

(** What a run of lines does to the reader: the first non-empty one (when the
    header is still awaited) replaces the header, the others are added to the
    rows already there. *)
Definition ingest (lines : list string) (is_header : bool) (r : CSVReader)
  : CSVReader :=
  match List.filter (fun l => negb (is_empty l)) lines with
  | [] => r
  | first :: others =>
      if is_header
      then {| data := data r ++ List.map parseRow others;
              headers := parseRow first |}
      else {| data := data r ++ List.map parseRow (first :: others);
              headers := headers r |}
  end.

(** One turn of the loop of [load] on the pair of [is_header] and the
    reader. *)
Definition load_step (acc : bool * CSVReader) (line : string) : bool * CSVReader :=
  load_line line (fst acc) (snd acc).

(** The double quote character. *)
Definition DQUOTE : ascii := "034".

(** ** Reference notions for the aggregate *)

(** The values of [price_idx] and [units_idx] for a reader. *)
Definition price_index (r : CSVReader) : Z :=
  to_int (Z.of_nat (find (headers r) "Price")).

Definition units_index (r : CSVReader) : Z :=
  to_int (Z.of_nat (find (headers r) "UnitsSold")).

(** The header has a column of that name. *)
Definition has_column (r : CSVReader) (name : string) : bool :=
  (find (headers r) name <? length (headers r))%nat.

(** The row has a cell at position [i]. *)
Definition has_cell (row : list string) (i : Z) : bool :=
  (0 <=? i) && (i <? Z.of_nat (length row)).

(** Both cells of the row are there and convert. *)
Definition parses (price_idx units_idx : Z) (row : list string) : bool :=
  match row_revenue price_idx units_idx row with
  | Done _ => true
  | _ => false
  end.

(** The product [price * units] of a row whose two cells convert. *)
Definition product (price_idx units_idx : Z) (row : list string) : double :=
  match row_revenue price_idx units_idx row with
  | Done v => v
  | _ => zero
  end.

(** The products of the rows whose two cells convert, in the order of the
    rows. *)
Definition revenues (price_idx units_idx : Z) (rows : list (list string))
  : list double :=
  List.map (product price_idx units_idx)
    (List.filter (parses price_idx units_idx) rows).

(** One warning for each row with a cell that does not convert. *)
Fixpoint warnings (price_idx units_idx : Z) (rows : list (list string))
  : list (ostream * string) :=
  match rows with
  | [] => []
  | row :: rows' =>
      match row_revenue price_idx units_idx row with
      | Raise e => warning e :: warnings price_idx units_idx rows'
      | _ => warnings price_idx units_idx rows'
      end
  end.

(** The running total: the products added one after the other to [0.0]. *)
Definition sum (products : list double) : double :=
  fold_left dadd products zero.

(** ** Reference notions for the numeric cells *)








Ltac case_count :=
  match goal with
  | |- context [match ?n with O => None | S _ => _ end] => destruct n
  end.

(** ** Example inputs *)

(** A header, two empty lines and three data lines. *)
Definition blank_lines_contents : string :=
  "ItemID,Price" +:+ nl +:+ nl +:+ nl +:+
  "1,2.5" +:+ nl +:+ "2,3.5" +:+ nl +:+ "3,4.5" +:+ nl.

Definition blank_lines_state : State :=
  {| files := {[ "table.csv" := Readable blank_lines_contents ]};
     mock_creatable := true; reader := new_reader; console := [] |}.

(** A reader that holds a table, with one file that cannot be read and no
    way to create the mock file. *)
Definition loaded_state : State :=
  {| files := {[ "locked.csv" := Unreadable ]};
     mock_creatable := false;
     reader := {| data := [["1"; "2.5"]]; headers := ["ItemID"; "Price"] |};
     console := [] |}.

Definition first_contents : string :=
  "ItemID,Price" +:+ nl +:+ "1,2.5" +:+ nl.

Definition second_contents : string :=
  "Code,Amount" +:+ nl +:+ "7,9.5" +:+ nl.

Definition two_files_state : State :=
  {| files := {[ "first.csv" := Readable first_contents;
                 "second.csv" := Readable second_contents ]};
     mock_creatable := true; reader := new_reader; console := [] |}.

(** The five rows of the mock file and a sixth with a price that is not a
    number. *)
Definition six_rows_state : State :=
  {| files := ∅; mock_creatable := true;
     reader :=
       {| data := [ ["101"; "Electronics"; "49.99"; "150"; "East"];
                    ["102"; "Books"; "19.50"; "300"; "West"];
                    ["103"; "Electronics"; "129.00"; "80"; "North"];
                    ["104"; "Clothing"; "35.75"; "220"; "East"];
                    ["105"; "Books"; "15.00"; "450"; "South"];
                    ["106"; "Toys"; "n/a"; "10"; "East"] ];
          headers := ["ItemID"; "Category"; "Price"; "UnitsSold"; "Location"] |};
     console := [] |}.

(** The start of the program: no file, an empty reader. *)
Definition fresh_state : State :=
  {| files := ∅; mock_creatable := true; reader := new_reader; console := [] |}.

Definition short_row_contents : string :=
  "ItemID,Category,Price,UnitsSold,Location" +:+ nl +:+
  "101,Electronics,49.99,150,East" +:+ nl +:+
  "102,Books" +:+ nl +:+
  "103,Electronics,129.00,80,North" +:+ nl.

Definition short_row_state : State :=
  {| files := {[ "short.csv" := Readable short_row_contents ]};
     mock_creatable := true; reader := new_reader; console := [] |}.

Definition header_only_state : State :=
  {| files := {[ "header.csv" := Readable ("ItemID,Category" +:+ nl) ]};
     mock_creatable := true; reader := new_reader; console := [] |}.

(** A table with one row and no [UnitsSold] column. *)
Definition no_units_state : State :=
  {| files := ∅; mock_creatable := true;
     reader := {| data := [["101"; "49.99"]]; headers := ["ItemID"; "Price"] |};
     console := [] |}.

(** ** Further reference notions for [parseRow] *)

(** Is [c] the last character of [s]? *)
Fixpoint ends_with (c : ascii) (s : string) : bool :=
  match s with
  | EmptyString => false
  | String a EmptyString => Ascii.eqb a c
  | String _ rest => ends_with c rest
  end.

(** The number of occurrences of [c] in [s]. *)
Fixpoint count_char (c : ascii) (s : string) : nat :=
  match s with
  | EmptyString => O
  | String a rest => (if Ascii.eqb a c then 1 else 0) + count_char c rest
  end.

(** The list is empty or its last string is not. *)
Fixpoint last_non_empty (pieces : list string) : bool :=
  match pieces with
  | [] => true
  | [piece] => negb (is_empty piece)
  | _ :: pieces' => last_non_empty pieces'
  end.

Definition comma_free (cells : list string) : bool :=
  forallb (fun cell => negb (contains COMMA cell)) cells.

(** ** Further notions for [createMockFile] and [load] *)

(** [CSVReader::file_exists_modern]: is there a file of that name? *)
Definition file_exists_modern (st : State) (filename : string) : bool :=
  bool_decide (is_Some (files st !! filename)).

(** The line that a successful [load] writes. *)
Definition loaded_message (rows : nat) (filename : string) : ostream * string :=
  (Cout, "[SUCCESS] Loaded " +:+ decimal_of_nat rows
           +:+ " data rows from " +:+ filename +:+ "." +:+ nl).

(** A cell without a comma and without a line feed; a reader whose header
    and rows have only such cells and no row without a cell. *)
Definition clean_cell (cell : string) : bool :=
  negb (contains COMMA cell) && negb (contains LF cell).

Definition clean_reader (r : CSVReader) : bool :=
  forallb clean_cell (headers r)
  && forallb (fun row => negb (bool_decide (row = [])) && forallb clean_cell row) (data r).

(** A reader that holds a table, with a file of two empty lines and a file
    with a header and one row. *)
Definition reload_state : State :=
  {| files := {[ "blank.csv" := Readable (nl +:+ nl);
                 "more.csv" := Readable ("ItemID,Price" +:+ nl +:+ "2,3.5" +:+ nl) ]};
     mock_creatable := true;
     reader := {| data := [["1"; "2.5"]]; headers := ["ItemID"; "Price"] |};
     console := [] |}.

(** ** Further notions for the aggregate *)

(** No row is shorter than the header, and the header has fewer columns than
    an [int] can count. *)
Definition rectangular (r : CSVReader) : bool :=
  (Z.of_nat (length (headers r)) <? 2 ^ 31)
  && forallb (fun row => (length (headers r) <=? length row)%nat) (data r).

(** A table of three columns where the first row stops after a price that is
    not a number. *)
Definition bad_price_state : State :=
  {| files := ∅; mock_creatable := true;
     reader := {| data := [["102"; "n/a"]; ["103"; "2.5"; "4"]];
                  headers := ["ItemID"; "Price"; "UnitsSold"] |};
     console := [] |}.

(** A table with two columns named [Price]. *)
Definition two_prices_reader : CSVReader :=
  {| data := [["2"; "1.5"; "9.5"]];
     headers := ["UnitsSold"; "Price"; "Price"] |}.

(** ** [CSVReader::printTable] *)

(** [std::string(n, c)] *)
Fixpoint fill (n : nat) (c : ascii) : string :=
  match n with
  | O => EmptyString
  | S n' => String c (fill n' c)
  end.

(** [os << std::setw(w) << s] once [std::left] is set: spaces after [s] up
    to the width [w], and [s] as it is when it is [w] wide or wider. *)
Definition setw_left (w : nat) (s : string) : string :=
  s +:+ fill (w - String.length s) " ".

(** [for (const auto& cell : cells) std::cout << std::setw(15) << cell;] *)
Definition print_cells (cells : list string) (st : State) : State :=
  fold_left (fun st cell => print Cout (setw_left 15 cell) st) cells st.

(** [std::cout << std::left] writes nothing, and the adjustment it sets is
    not used by the other output of the program, which sets no width. *)
Definition printTable (st : State) : State :=
  if bool_decide (data (reader st) = []) then
    print Cout ("[INFO] No data loaded." +:+ nl) st
  else
    let st := print Cout (nl +:+ "--- Loaded Data Table ---" +:+ nl) st in
    let st := print_cells (headers (reader st)) st in
    let st := print Cout nl st in
    let st := print Cout (fill (length (headers (reader st)) * 15) "-" +:+ nl) st in
    let st := fold_left (fun st row => print Cout nl (print_cells row st))
                (data (reader st)) st in
    print Cout nl st.

(** ** [main] *)

(** The reader is a local variable of [main]; the result is the exit code
    and the state at the end. *)
Definition main (st : State) : exec (Z * State) :=
  let st := set_reader new_reader st in
  let '(loaded, st) := load MOCK_FILENAME st in
  if loaded then
    st ← calculateTotalRevenue (printTable st);
    Done (0, st)
  else Done (0, st).

(** ** Reference notions for the output *)

Definition same_stream (a b : ostream) : bool :=
  match a, b with
  | Cout, Cout | Cerr, Cerr => true
  | _, _ => false
  end.

(** All that was written to one stream, in order. *)
Fixpoint text_on (o : ostream) (out : list (ostream * string)) : string :=
  match out with
  | [] => EmptyString
  | (o', text) :: out' =>
      if same_stream o o' then text +:+ text_on o out' else text_on o out'
  end.

(** A row of the table as text: its cells, each filled up to 15 characters. *)
Fixpoint render_row (cells : list string) : string :=
  match cells with
  | [] => EmptyString
  | cell :: cells' => setw_left 15 cell +:+ render_row cells'
  end.

Fixpoint render_rows (rows : list (list string)) : string :=
  match rows with
  | [] => EmptyString
  | row :: rows' => render_row row +:+ nl +:+ render_rows rows'
  end.

(** The table as text: an empty line and the title, the header, a rule of 15
    dashes for each column, the rows, and an empty line. *)
Definition render_table (r : CSVReader) : string :=
  nl +:+ "--- Loaded Data Table ---" +:+ nl
    +:+ render_row (headers r) +:+ nl
    +:+ fill (length (headers r) * 15) "-" +:+ nl
    +:+ render_rows (data r) +:+ nl.

(** The reader after a load of the mock file. *)
Definition mock_reader : CSVReader :=
  {| data := [ ["101"; "Electronics"; "49.99"; "150"; "East"];
               ["102"; "Books"; "19.50"; "300"; "West"];
               ["103"; "Electronics"; "129.00"; "80"; "North"];
               ["104"; "Clothing"; "35.75"; "220"; "East"];
               ["105"; "Books"; "15.00"; "450"; "South"] ];
     headers := ["ItemID"; "Category"; "Price"; "UnitsSold"; "Location"] |}.

(** The reader that [main] has after reading a file. *)
Definition table_of (contents : string) : CSVReader :=
  {| data := List.map parseRow (tl (non_empty_lines contents));
     headers := match non_empty_lines contents with
                | [] => []
                | first :: _ => parseRow first
                end |}.

(** A mock file that is there and cannot be read. *)
Definition locked_mock_state : State :=
  {| files := {[ MOCK_FILENAME := Unreadable ]};
     mock_creatable := true; reader := new_reader;
     console := [(Cout, "earlier" +:+ nl)] |}.

(** A file [data.csv] of the user, with a row longer than the header. *)
Definition user_file_state : State :=
  {| files := {[ MOCK_FILENAME :=
                   Readable ("Price,UnitsSold" +:+ nl +:+ "2.5,4,note" +:+ nl
                               +:+ nl +:+ "x,1" +:+ nl) ]};
     mock_creatable := false; reader := new_reader; console := [] |}.

(** The mock file is there and cannot be read, or is not there and cannot be
    created. *)
Definition mock_unavailable (st : State) : bool :=
  match files st !! MOCK_FILENAME with
  | Some Unreadable => true
  | Some (Readable _) => false
  | None => negb (mock_creatable st)
  end.

Definition narrow (cells : list string) : bool :=
  forallb (fun cell => (String.length cell <=? 15)%nat) cells.

(** ** Reference notions for a number followed by other characters *)












(** The row does not send the loop outside the row: it has a cell at the
    price index and, when that cell converts, one at the units index. *)
Definition stays_inside (price_idx units_idx : Z) (row : list string) : bool :=
  match vec_index row price_idx with
  | Done cell =>
      match CLib.stod cell with
      | Done _ => has_cell row units_idx
      | _ => true
      end
  | _ => false
  end.

(** The value is a NaN. *)
Definition not_a_number (x : double) : bool :=
  match x with S754_nan => true | _ => false end.

(** The two lines of the report, given the text of the total. *)
Definition report_lines (total_text : string) : list (ostream * string) :=
  [ (Cout, "--- Analysis Result ---" +:+ nl);
    (Cout, "Total Estimated Revenue: $" +:+ total_text +:+ nl +:+ nl) ].

(** A file [data.csv] of the user: a row with a price that is not a number,
    a row that stops after its price, and a row with both cells. *)
Definition bad_then_short_contents : string :=
  "Price,UnitsSold" +:+ nl +:+ "n/a,1" +:+ nl +:+ "2.5" +:+ nl +:+ "3,2" +:+ nl.

Definition bad_then_short_state : State :=
  {| files := {[ MOCK_FILENAME := Readable bad_then_short_contents ]};
     mock_creatable := true; reader := new_reader; console := [] |}.

(** The same file without the row that stops after its price. *)
Definition bad_then_good_state : State :=
  {| files := {[ MOCK_FILENAME :=
                   Readable ("Price,UnitsSold" +:+ nl +:+ "n/a,1" +:+ nl
                               +:+ "3,2" +:+ nl) ]};
     mock_creatable := true; reader := new_reader; console := [] |}.



(** ** Appending strings *)

Lemma append_nil_l s : EmptyString +:+ s = s.
Proof. reflexivity. Qed.

Lemma append_cons c s t : String c s +:+ t = String c (s +:+ t).
Proof. reflexivity. Qed.

Lemma append_nil_r s : s +:+ EmptyString = s.
Proof. induction s as [|c s IH]; [reflexivity|]. now rewrite append_cons, IH. Qed.

Lemma append_assoc a b c : (a +:+ b) +:+ c = a +:+ (b +:+ c).
Proof.
  induction a as [|x a IH]; [reflexivity|]. rewrite !append_cons. now rewrite IH.
Qed.

(** Trailing characters after the digits of [stoi]. *)
(** ** Streams and splitting *)

Section Splitting.

Variable delim : ascii.

Lemma extract_eof b cell rest :
  Stream.extract delim b = (cell, rest, true) -> cell = b /\ rest = EmptyString.
Proof.
  revert cell rest. induction b as [|c b IH]; intros cell rest; simpl.
  - intros [= <- <-]. auto.
  - destruct (Ascii.eqb c delim); [discriminate|].
    destruct (Stream.extract delim b) as [[cell' rest'] e'].
    intros [= <- <- ->]. destruct (IH _ _ eq_refl) as [-> ->]. auto.
Qed.

Lemma extract_shorter b cell rest e :
  Stream.extract delim b = (cell, rest, e) ->
  (String.length rest <= String.length b)%nat /\
  (b <> EmptyString -> String.length rest < String.length b)%nat.
Proof.
  revert cell rest e. induction b as [|c b IH]; intros cell rest e; simpl.
  - intros [= <- <- <-]. split; [reflexivity | congruence].
  - destruct (Ascii.eqb c delim).
    + intros [= <- <- <-]. split; intros; lia.
    + destruct (Stream.extract delim b) as [[cell' rest'] e'].
      intros [= <- <- <-]. destruct (IH _ _ _ eq_refl) as [Hle _].
      split; intros; lia.
Qed.

Lemma split_on_not_nil s : split_on delim s <> [].
Proof.
  destruct s as [|c s]; simpl; [discriminate|].
  destruct (Ascii.eqb c delim); [discriminate|].
  destruct (split_on delim s); discriminate.
Qed.

(** One call of [getline] takes the first piece of the split. *)
Lemma split_on_extract b :
  split_on delim b =
  let '(cell, rest, e) := Stream.extract delim b in
  if e then [cell] else cell :: split_on delim rest.
Proof.
  induction b as [|c b IH]; simpl; [reflexivity|].
  destruct (Ascii.eqb c delim); [reflexivity|].
  rewrite IH. destruct (Stream.extract delim b) as [[cell rest] e].
  destruct e; reflexivity.
Qed.

Lemma drop_trailing_empty_cons piece pieces :
  pieces <> [] ->
  drop_trailing_empty (piece :: pieces) = piece :: drop_trailing_empty pieces.
Proof. destruct pieces; [congruence | reflexivity]. Qed.

Lemma drop_trailing_empty_snoc pieces :
  pieces <> [] -> drop_trailing_empty (pieces ++ [EmptyString]) = pieces.
Proof.
  induction pieces as [|p ps IH]; [congruence|]. intros _.
  destruct ps as [|q ps]; [reflexivity|].
  change ((p :: q :: ps) ++ [EmptyString]) with (p :: ((q :: ps) ++ [EmptyString])).
  rewrite drop_trailing_empty_cons by (simpl; discriminate).
  rewrite IH by discriminate. reflexivity.
Qed.

Lemma split_on_snoc s :
  split_on delim (s +:+ String delim EmptyString) = split_on delim s ++ [EmptyString].
Proof.
  induction s as [|c s IH]; simpl.
  - rewrite Ascii.eqb_refl. reflexivity.
  - destruct (Ascii.eqb c delim); rewrite IH; [reflexivity|].
    pose proof (split_on_not_nil s).
    destruct (split_on delim s); [congruence | reflexivity].
Qed.

Lemma join_split_on s : join delim (split_on delim s) = s.
Proof.
  induction s as [|c s IH]; simpl; [reflexivity|].
  pose proof (split_on_not_nil s) as Hne.
  destruct (Ascii.eqb_spec c delim) as [->|Hc].
  - destruct (split_on delim s) as [|p ps]; [congruence|].
    simpl in *. rewrite IH. reflexivity.
  - destruct (split_on delim s) as [|p ps]; [congruence|].
    destruct ps; simpl in *; rewrite <- IH; reflexivity.
Qed.

Lemma split_on_no_delim s :
  Forall (fun piece => contains delim piece = false) (split_on delim s).
Proof.
  induction s as [|c s IH]; simpl.
  - repeat constructor.
  - destruct (Ascii.eqb c delim) eqn:Hc.
    + constructor; [reflexivity | exact IH].
    + destruct (split_on delim s) as [|p ps]; [repeat constructor; simpl; now rewrite Hc|].
      inversion IH; subst. constructor; [simpl; rewrite Hc; assumption | assumption].
Qed.

End Splitting.

(** ** The two reading loops terminate and compute the split *)

Lemma parseRow_loop_spec fuel b cell fields :
  (String.length b < fuel)%nat ->
  parseRow_loop fuel (Stream.open b) cell fields
  = Some (fields ++ drop_trailing_empty (split_on COMMA b)).
Proof.
  revert b cell fields. induction fuel as [|fuel IH]; intros b cell fields Hlen; [lia|].
  destruct b as [|a b]; [cbn; now rewrite app_nil_r|].
  remember (String a b) as s eqn:Hs.
  pose proof (split_on_extract COMMA s) as Hsplit.
  pose proof (extract_shorter COMMA s) as Hshort.
  pose proof (extract_eof COMMA s) as Heof.
  cbn [parseRow_loop]. unfold Stream.getline, Stream.open, Stream.good.
  cbn [Stream.buf Stream.eofbit Stream.failbit negb andb].
  destruct (Stream.extract COMMA s) as [[c r] e].
  destruct (Hshort _ _ _ eq_refl) as [_ Hlt].
  specialize (Hlt ltac:(subst s; discriminate)). rewrite Hsplit.
  replace (match s with EmptyString => true | String _ _ => false end) with false
    by (subst s; reflexivity).
  unfold Stream.ok; cbn [Stream.failbit negb].
  destruct e.
  - destruct (Heof _ _ eq_refl) as [-> ->].
    destruct fuel as [|fuel]; [subst s; simpl in Hlen; lia|].
    subst s. reflexivity.
  - change {| Stream.buf := r; Stream.eofbit := false; Stream.failbit := false |}
      with (Stream.open r).
    rewrite IH by lia.
    rewrite drop_trailing_empty_cons by apply split_on_not_nil.
    now rewrite <- app_assoc.
Qed.

(** [parseRow] in closed form. *)
Lemma parseRow_spec line :
  parseRow line = drop_trailing_empty (split_on COMMA line).
Proof.
  unfold parseRow, parseRow_fuel. rewrite parseRow_loop_spec by lia. reflexivity.
Qed.

Lemma load_loop_spec fuel b line is_header r :
  (String.length b < fuel)%nat ->
  load_loop fuel (Stream.open b) line is_header r
  = Some (snd (fold_left load_step (text_lines b) (is_header, r))).
Proof.
  unfold text_lines.
  revert b line is_header r. induction fuel as [|fuel IH]; intros b line h r Hlen; [lia|].
  destruct b as [|a b]; [reflexivity|].
  remember (String a b) as s eqn:Hs.
  pose proof (split_on_extract LF s) as Hsplit.
  pose proof (extract_shorter LF s) as Hshort.
  pose proof (extract_eof LF s) as Heof.
  cbn [load_loop]. unfold Stream.getline, Stream.open, Stream.good.
  cbn [Stream.buf Stream.eofbit Stream.failbit negb andb].
  destruct (Stream.extract LF s) as [[c rest] e].
  destruct (Hshort _ _ _ eq_refl) as [_ Hlt].
  specialize (Hlt ltac:(subst s; discriminate)). rewrite Hsplit.
  replace (match s with EmptyString => true | String _ _ => false end) with false
    by (subst s; reflexivity).
  unfold Stream.ok; cbn [Stream.failbit negb].
  destruct (load_line c h r) as [h' r'] eqn:Hstep.
  destruct e.
  - destruct (Heof _ _ eq_refl) as [-> ->].
    destruct fuel as [|fuel]; [subst s; simpl in Hlen; lia|].
    assert (Hd : drop_trailing_empty [s] = [s]) by (subst s; reflexivity).
    rewrite Hd. cbn [fold_left]. unfold load_step. cbn [fst snd]. rewrite Hstep.
    reflexivity.
  - change {| Stream.buf := rest; Stream.eofbit := false; Stream.failbit := false |}
      with (Stream.open rest).
    rewrite IH by lia.
    rewrite drop_trailing_empty_cons by apply split_on_not_nil.
    cbn [fold_left]. change (load_step (h, r) c) with (load_line c h r).
    rewrite Hstep. reflexivity.
Qed.

Lemma fold_load_step_ingest lines is_header r :
  snd (fold_left load_step lines (is_header, r)) = ingest lines is_header r.
Proof.
  revert is_header r. induction lines as [|l lines IH]; intros h r; [reflexivity|].
  cbn [fold_left]. change (load_step (h, r) l) with (load_line l h r).
  unfold load_line.
  unfold ingest. cbn [List.filter].
  destruct (is_empty l) eqn:Hl; cbn [negb].
  - rewrite IH. reflexivity.
  - destruct h; rewrite IH; unfold ingest; cbn [data headers];
      destruct (List.filter _ lines) as [|f o]; cbn [List.map data headers];
      rewrite ?app_nil_r, <- ?app_assoc; reflexivity.
Qed.

(** The reader that a successful [load] leaves. *)
Lemma load_loop_ingest contents r :
  load_loop (load_fuel contents) (Stream.open contents) EmptyString true r
  = Some (ingest (text_lines contents) true r).
Proof.
  unfold load_fuel. rewrite load_loop_spec by lia.
  now rewrite fold_load_step_ingest.
Qed.

Lemma split_on_line l rest :
  contains LF l = false ->
  split_on LF (l +:+ String LF rest) = l :: split_on LF rest.
Proof.
  induction l as [|c l IH]; intros Hl.
  - rewrite append_nil_l. cbn [split_on]. now rewrite Ascii.eqb_refl.
  - cbn in Hl. apply orb_false_elim in Hl as [Hc Hl].
    rewrite append_cons. cbn [split_on]. rewrite Hc, (IH Hl). reflexivity.
Qed.

(** The lines of a text that was written line by line are those lines. *)
Lemma text_lines_unlines lines :
  Forall (fun l => contains LF l = false) lines ->
  text_lines (unlines lines) = lines.
Proof.
  unfold text_lines. intros Hlines.
  assert (H : split_on LF (unlines lines) = lines ++ [EmptyString]).
  { induction Hlines as [|l lines Hl _ IH]; [reflexivity|].
    cbn [unlines]. rewrite split_on_line by assumption. now rewrite IH. }
  rewrite H. destruct lines as [|l lines]; [reflexivity|].
  now apply drop_trailing_empty_snoc.
Qed.

(** ** Properties of [parseRow] *)

Lemma split_on_commas k : split_on COMMA (commas k) = repeat EmptyString (S k).
Proof. induction k as [|k IH]; [reflexivity|]. simpl in *. now rewrite IH. Qed.

Lemma commas_snoc k : commas (S k) = commas k +:+ ",".
Proof.
  induction k as [|k IH]; [reflexivity|].
  change (commas (S (S k))) with (String COMMA (commas (S k))).
  rewrite IH at 1. reflexivity.
Qed.

Lemma parseRow_comma_terminated s :
  parseRow (s +:+ ",") = split_on COMMA s.
Proof.
  rewrite parseRow_spec. change "," with (String COMMA EmptyString).
  rewrite split_on_snoc. apply drop_trailing_empty_snoc, split_on_not_nil.
Qed.

(** C4: [parseRow] cuts the line at every comma and at nothing else.  The
    fields are those of the textbook split (from which only an empty last
    piece is missing); the textbook split loses no character, since joining
    its pieces with commas gives the line back, so that spaces and quotes stay
    in the cells, and no piece contains a comma, so that every comma is a
    boundary whatever surrounds it.  Empty fields inside the line are kept:
    the line [a,b,,d] has the four fields [a], [b], the empty one and [d]; a
    comma between quotes separates like any other. *)
Theorem parseRow_splits_on_every_comma :
  parseRow "a,b,,d" = ["a"; "b"; EmptyString; "d"] /\
  parseRow (String DQUOTE ("x,y" +:+ String DQUOTE ", z "))
    = [String DQUOTE "x"; "y" +:+ String DQUOTE EmptyString; " z "] /\
  forall line,
    parseRow line = drop_trailing_empty (split_on COMMA line) /\
    join COMMA (split_on COMMA line) = line /\
    Forall (fun cell => contains COMMA cell = false) (split_on COMMA line).
Proof.
  split; [reflexivity|]. split; [reflexivity|].
  intros line. split; [apply parseRow_spec|].
  split; [apply join_split_on | apply split_on_no_delim].
Qed.

(** C9: on a line that ends in a comma [parseRow] returns the split of the
    line without that comma: the empty field which the textbook split has
    after the last comma is not produced.  So [parseRow] of [a,] is the one
    field [a], and a line of [k] commas has [k] fields, all empty. *)
Theorem parseRow_drops_trailing_empty_field :
  (forall s,
      parseRow (s +:+ ",") = split_on COMMA s /\
      split_on COMMA (s +:+ ",") = parseRow (s +:+ ",") ++ [EmptyString]) /\
  parseRow "a," = ["a"] /\
  (forall k,
      parseRow (commas k) = repeat EmptyString k /\
      length (parseRow (commas k)) = k).
Proof.
  split; [|split; [reflexivity|]].
  - intros s. rewrite parseRow_comma_terminated. split; [reflexivity|].
    change "," with (String COMMA EmptyString). apply split_on_snoc.
  - intros k.
    assert (H : parseRow (commas k) = repeat EmptyString k).
    { destruct k as [|k]; [reflexivity|].
      rewrite commas_snoc, parseRow_comma_terminated. apply split_on_commas. }
    rewrite H. split; [reflexivity | apply repeat_length].
Qed.

(** ** Properties of [load] *)

Lemma reader_createMockFile st : reader (createMockFile st) = reader st.
Proof.
  unfold createMockFile.
  destruct (files st !! MOCK_FILENAME); [reflexivity|].
  destruct (mock_creatable st); reflexivity.
Qed.

(** Only the mock file can appear: every other path opens as before. *)
Lemma open_createMockFile st filename :
  filename <> MOCK_FILENAME ->
  open_for_reading (createMockFile st) filename = open_for_reading st filename.
Proof.
  intros Hne. unfold open_for_reading, createMockFile.
  destruct (files st !! MOCK_FILENAME); [reflexivity|].
  destruct (mock_creatable st); [|reflexivity].
  cbn [print files]. now rewrite lookup_insert_ne.
Qed.

(** A load that opens its file adds the lines of the file to the reader. *)
Lemma load_opened filename st contents :
  open_for_reading (createMockFile st) filename = Some contents ->
  exists st',
    load filename st = (true, st') /\
    reader st' = ingest (text_lines contents) true (reader st).
Proof.
  intros Hopen. unfold load. rewrite Hopen, load_loop_ingest.
  eexists. split; [reflexivity|]. cbn. now rewrite reader_createMockFile.
Qed.

Lemma ingest_new_reader lines :
  ingest lines true new_reader
  = {| data := List.map parseRow (tl (List.filter (fun l => negb (is_empty l)) lines));
       headers := match List.filter (fun l => negb (is_empty l)) lines with
                  | [] => []
                  | first :: _ => parseRow first
                  end |}.
Proof.
  unfold ingest. destruct (List.filter _ lines); reflexivity.
Qed.

(** C5: from the empty reader, a load that opens its file leaves as header
    the fields of the first line that is not empty (no header when there is
    none) and as rows the fields of the non-empty lines after it, in order,
    one row for each; lines of length zero are in neither.  The number of rows
    is the number of non-empty lines after the first. *)
Theorem load_skips_empty_lines filename st contents :
  open_for_reading (createMockFile st) filename = Some contents ->
  reader st = new_reader ->
  exists st',
    load filename st = (true, st') /\
    headers (reader st') = match non_empty_lines contents with
                           | [] => []
                           | first :: _ => parseRow first
                           end /\
    data (reader st') = List.map parseRow (tl (non_empty_lines contents)) /\
    length (data (reader st')) = pred (length (non_empty_lines contents)).
Proof.
  intros Hopen Hnew.
  destruct (load_opened _ _ _ Hopen) as (st' & Hload & Hreader).
  exists st'. split; [exact Hload|].
  rewrite Hreader, Hnew, ingest_new_reader. cbn [headers data].
  fold (non_empty_lines contents).
  split; [reflexivity|]. split; [reflexivity|].
  rewrite length_map. now destruct (non_empty_lines contents).
Qed.

Lemma load_skips_empty_lines_witness :
  exists st',
    load "table.csv" blank_lines_state = (true, st') /\
    headers (reader st') = ["ItemID"; "Price"] /\
    data (reader st') = [["1"; "2.5"]; ["2"; "3.5"]; ["3"; "4.5"]] /\
    length (data (reader st')) = 3%nat.
Proof.
  exact (load_skips_empty_lines "table.csv" blank_lines_state blank_lines_contents
           eq_refl eq_refl).
Defined.

(** The same for a file given by its lines: with [n] non-empty lines after
    the first non-empty one, and empty lines anywhere, the table has [n]
    rows. *)
Lemma load_row_count filename st lines header rows :
  Forall (fun l => contains LF l = false) lines ->
  List.filter (fun l => negb (is_empty l)) lines = header :: rows ->
  open_for_reading (createMockFile st) filename = Some (unlines lines) ->
  reader st = new_reader ->
  exists st',
    load filename st = (true, st') /\
    headers (reader st') = parseRow header /\
    length (data (reader st')) = length rows.
Proof.
  intros Hlines Hfilter Hopen Hnew.
  destruct (load_opened _ _ _ Hopen) as (st' & Hload & Hreader).
  exists st'. split; [exact Hload|].
  rewrite Hreader, Hnew, ingest_new_reader, text_lines_unlines, Hfilter by assumption.
  cbn [headers data tl]. split; [reflexivity | apply length_map].
Qed.

(** C3: when the file cannot be opened for reading, [load] returns [false]
    (it returns: the result is a value, not an exception) and the header and
    the rows of the reader are what they were. *)
Theorem load_unopened_keeps_reader filename st :
  open_for_reading (createMockFile st) filename = None ->
  exists st',
    load filename st = (false, st') /\
    headers (reader st') = headers (reader st) /\
    data (reader st') = data (reader st).
Proof.
  intros Hopen. unfold load. rewrite Hopen.
  eexists. split; [reflexivity|]. cbn [print reader].
  now rewrite reader_createMockFile.
Qed.

Lemma load_unopened_keeps_reader_witness :
  (exists st',
      load "missing.csv" loaded_state = (false, st') /\
      headers (reader st') = ["ItemID"; "Price"] /\
      data (reader st') = [["1"; "2.5"]]) /\
  (exists st',
      load "locked.csv" loaded_state = (false, st') /\
      headers (reader st') = ["ItemID"; "Price"] /\
      data (reader st') = [["1"; "2.5"]]).
Proof.
  split.
  - exact (load_unopened_keeps_reader "missing.csv" loaded_state eq_refl).
  - exact (load_unopened_keeps_reader "locked.csv" loaded_state eq_refl).
Defined.

(** The rows that were in the reader are still there after a load that
    succeeds, in front of the new ones. *)
Lemma load_appends filename st contents :
  open_for_reading (createMockFile st) filename = Some contents ->
  exists st',
    load filename st = (true, st') /\
    data (reader st')
    = data (reader st) ++ List.map parseRow (tl (non_empty_lines contents)).
Proof.
  intros Hopen. destruct (load_opened _ _ _ Hopen) as (st' & Hload & Hreader).
  exists st'. split; [exact Hload|]. rewrite Hreader. unfold ingest.
  fold (non_empty_lines contents).
  destruct (non_empty_lines contents); cbn [data tl List.map];
    [now rewrite app_nil_r | reflexivity].
Qed.

(** C2, at a failing input: [first.csv] and then [second.csv] are loaded,
    both with success.  The header is that of the second file, but the row
    of the first file is still in the table, before the row of the second;
    the table is not the rows of the second file, and the last message counts
    two rows loaded from a file that has one. *)
Theorem load_twice_keeps_old_rows :
  let '(ok1, st1) := load "first.csv" two_files_state in
  let '(ok2, st2) := load "second.csv" st1 in
  ok1 = true /\ ok2 = true /\
  headers (reader st2) = ["Code"; "Amount"] /\
  data (reader st2) = [["1"; "2.5"]; ["7"; "9.5"]] /\
  data (reader st2) <> List.map parseRow (tl (non_empty_lines second_contents)) /\
  last (console st2)
  = Some (Cout, "[SUCCESS] Loaded 2 data rows from second.csv." +:+ nl).
Proof.
  vm_compute. repeat split; discriminate.
Qed.

(** ** Properties of [calculateTotalRevenue] *)

Lemma stoi_defined s : CLib.stoi s <> Undefined.
Proof.
  unfold CLib.stoi.
  destruct (CLib.sign _) as [neg s'].
  destruct (CLib.digits _ _ _ _ _) as [[v n] r].
  destruct n; [discriminate|]. destruct (_ && _); discriminate.
Qed.

Lemma stod_defined s : CLib.stod s <> Undefined.
Proof.
  unfold CLib.stod.
  destruct (CLib.sign _) as [neg s'].
  destruct (CLib.subject_of s'); try discriminate.
  destruct (CLib.round_fraction _ _ _ _); try discriminate;
    destruct (_ && _); discriminate.
Qed.

Lemma vec_index_has_cell row i :
  has_cell row i = true -> exists cell, vec_index row i = Done cell.
Proof.
  unfold has_cell, vec_index. intros [H0 Hlt]%andb_prop.
  rewrite H0. apply Z.ltb_lt in Hlt. apply Z.leb_le in H0.
  destruct (row !! Z.to_nat i) as [cell|] eqn:Hcell; [eauto|].
  apply lookup_ge_None in Hcell. lia.
Qed.

Lemma vec_index_no_cell row i :
  has_cell row i = false -> vec_index row i = Undefined.
Proof.
  unfold has_cell, vec_index. destruct (0 <=? i) eqn:H0; [|reflexivity].
  cbn [andb]. intros Hlt%Z.ltb_ge. apply Z.leb_le in H0.
  destruct (row !! Z.to_nat i) as [cell|] eqn:Hcell; [|reflexivity].
  apply lookup_lt_Some in Hcell. lia.
Qed.

Lemma row_revenue_defined price_idx units_idx row :
  has_cell row price_idx = true -> has_cell row units_idx = true ->
  row_revenue price_idx units_idx row <> Undefined.
Proof.
  intros [pc Hp]%vec_index_has_cell [uc Hu]%vec_index_has_cell.
  unfold row_revenue. rewrite Hp. cbn.
  pose proof (stod_defined pc). destruct (CLib.stod pc); [|discriminate|congruence].
  cbn. rewrite Hu. cbn.
  pose proof (stoi_defined uc). destruct (CLib.stoi uc); [discriminate|discriminate|congruence].
Qed.

(** The loop over rows that all have the two cells: the products of the
    rows that convert are added up, each other row leaves a warning. *)
Lemma revenue_loop_spec price_idx units_idx rows total out :
  Forall (fun row => has_cell row price_idx = true /\ has_cell row units_idx = true) rows ->
  revenue_loop price_idx units_idx rows total out
  = Done (fold_left dadd (revenues price_idx units_idx rows) total,
          out ++ warnings price_idx units_idx rows).
Proof.
  intros Hrows. revert total out.
  induction Hrows as [|row rows [Hp Hu] _ IH]; intros total out.
  - cbn. now rewrite app_nil_r.
  - pose proof (row_revenue_defined _ _ _ Hp Hu) as Hdef.
    cbn [revenue_loop warnings]. unfold revenues, parses, product in *.
    cbn [List.filter].
    destruct (row_revenue price_idx units_idx row) as [v|e|] eqn:Hrow; [| |congruence].
    + rewrite IH. cbn [List.map fold_left]. now rewrite Hrow.
    + rewrite IH. now rewrite <- app_assoc.
Qed.

(** A row without a cell at the price index: the loop runs into the
    unchecked access. *)
Lemma revenue_loop_short_row price_idx units_idx row rows total out :
  has_cell row price_idx = false ->
  revenue_loop price_idx units_idx (row :: rows) total out = Undefined.
Proof.
  intros H. cbn [revenue_loop]. unfold row_revenue.
  now rewrite (vec_index_no_cell _ _ H).
Qed.

Lemma calculateTotalRevenue_columns st :
  data (reader st) <> [] ->
  has_column (reader st) "Price" = true ->
  has_column (reader st) "UnitsSold" = true ->
  calculateTotalRevenue st =
  '(total_revenue, out) ← revenue_loop (price_index (reader st)) (units_index (reader st))
                             (data (reader st)) zero (console st);
  Done (with_console (out ++ report total_revenue) st).
Proof.
  unfold has_column, calculateTotalRevenue. intros Hdata Hp%Nat.ltb_lt Hu%Nat.ltb_lt.
  rewrite bool_decide_eq_false_2 by assumption.
  destruct (Nat.eqb_spec (find (headers (reader st)) "Price") (length (headers (reader st)))); [lia|].
  destruct (Nat.eqb_spec (find (headers (reader st)) "UnitsSold") (length (headers (reader st)))); [lia|].
  reflexivity.
Qed.

(** The same in a table: once the rows before it are done, a row without a
    price cell makes the behaviour of the whole call undefined. *)
Lemma calculateTotalRevenue_short_row st rows1 row rows2 :
  has_column (reader st) "Price" = true ->
  has_column (reader st) "UnitsSold" = true ->
  data (reader st) = rows1 ++ row :: rows2 ->
  Forall (fun r => has_cell r (price_index (reader st)) = true
                   /\ has_cell r (units_index (reader st)) = true) rows1 ->
  has_cell row (price_index (reader st)) = false ->
  calculateTotalRevenue st = Undefined.
Proof.
  intros Hp Hu Hdata Hrows1 Hrow.
  rewrite calculateTotalRevenue_columns by
    (assumption || (rewrite Hdata; now destruct rows1)).
  rewrite Hdata. clear Hdata. generalize zero (console st).
  induction Hrows1 as [|r rows [Hrp Hru] _ IH]; intros total out.
  - cbn [app]. now rewrite revenue_loop_short_row.
  - pose proof (row_revenue_defined _ _ _ Hrp Hru) as Hdef.
    cbn [app revenue_loop].
    destruct (row_revenue _ _ r); [apply IH | apply IH | congruence].
Qed.

Lemma revenues_without_bad_row price_idx units_idx rows1 bad rows2 :
  parses price_idx units_idx bad = false ->
  revenues price_idx units_idx (rows1 ++ bad :: rows2)
  = revenues price_idx units_idx (rows1 ++ rows2).
Proof.
  intros Hbad. unfold revenues. rewrite !List.filter_app. cbn [List.filter].
  now rewrite Hbad.
Qed.

Lemma find_le v x : (find v x <= length v)%nat.
Proof.
  induction v as [|h t IH]; cbn; [lia|]. destruct (String.eqb h x); lia.
Qed.

(** [find] stops before the end exactly when some element is the name. *)
Lemma has_column_In r name : has_column r name = true <-> In name (headers r).
Proof.
  unfold has_column. rewrite Nat.ltb_lt.
  induction (headers r) as [|h t IH]; cbn; [split; [lia | tauto]|].
  destruct (String.eqb_spec h name) as [->|Hne].
  - split; [auto | lia].
  - rewrite <- IH. split; [intros; right; lia | intros [?|?]; [congruence | lia]].
Qed.

Lemma forallb_has_cells price_idx units_idx rows :
  forallb (fun row => has_cell row price_idx && has_cell row units_idx) rows = true ->
  Forall (fun row => has_cell row price_idx = true /\ has_cell row units_idx = true) rows.
Proof.
  rewrite forallb_forall, List.Forall_forall.
  intros H row Hin. apply andb_prop, H, Hin.
Qed.

(** ** Rows that stay inside *)

Lemma stays_inside_defined price_idx units_idx row :
  stays_inside price_idx units_idx row = true <->
  row_revenue price_idx units_idx row <> Undefined.
Proof.
  unfold stays_inside, row_revenue.
  destruct (has_cell row price_idx) eqn:Hp;
    [|rewrite (vec_index_no_cell _ _ Hp); cbn; split; congruence].
  destruct (vec_index_has_cell _ _ Hp) as [cell ->]. cbn.
  pose proof (stod_defined cell) as Hstod.
  destruct (CLib.stod cell) as [price| |]; cbn; [|split; congruence..].
  destruct (has_cell row units_idx) eqn:Hu.
  - destruct (vec_index_has_cell _ _ Hu) as [uc ->]. cbn.
    pose proof (stoi_defined uc) as Hstoi.
    destruct (CLib.stoi uc); cbn; split; congruence.
  - rewrite (vec_index_no_cell _ _ Hu). cbn. split; congruence.
Qed.

(** The loop over rows that stay inside: the products of the rows that
    convert are added up, each other row leaves a warning. *)
Lemma revenue_loop_inside price_idx units_idx rows total out :
  forallb (stays_inside price_idx units_idx) rows = true ->
  revenue_loop price_idx units_idx rows total out
  = Done (fold_left dadd (revenues price_idx units_idx rows) total,
          out ++ warnings price_idx units_idx rows).
Proof.
  revert total out. induction rows as [|row rows IH]; intros total out Hrows.
  - cbn. now rewrite app_nil_r.
  - cbn [forallb] in Hrows. apply andb_prop in Hrows as [Hrow Hrows].
    apply stays_inside_defined in Hrow.
    cbn [revenue_loop warnings]. unfold revenues, parses, product in *.
    cbn [List.filter].
    destruct (row_revenue price_idx units_idx row) as [v|e|] eqn:E; [| |congruence].
    + rewrite IH by assumption. cbn [List.map fold_left]. now rewrite E.
    + rewrite IH by assumption. now rewrite <- app_assoc.
Qed.

Lemma calculateTotalRevenue_inside st :
  data (reader st) <> [] ->
  has_column (reader st) "Price" = true ->
  has_column (reader st) "UnitsSold" = true ->
  forallb (stays_inside (price_index (reader st)) (units_index (reader st)))
    (data (reader st)) = true ->
  calculateTotalRevenue st
  = Done (with_console
            (console st
               ++ warnings (price_index (reader st)) (units_index (reader st))
                    (data (reader st))
               ++ report (sum (revenues (price_index (reader st))
                                 (units_index (reader st)) (data (reader st)))))
            st).
Proof.
  intros Hdata Hp Hu Hrows.
  rewrite calculateTotalRevenue_columns by assumption.
  rewrite revenue_loop_inside by assumption.
  cbn. now rewrite <- app_assoc.
Qed.

Lemma warnings_count price_idx units_idx rows :
  forallb (stays_inside price_idx units_idx) rows = true ->
  length (warnings price_idx units_idx rows)
  = length (List.filter (fun row => negb (parses price_idx units_idx row)) rows).
Proof.
  unfold parses. induction rows as [|row rows IH]; [reflexivity|].
  cbn [forallb]. intros [Hrow Hrows]%andb_prop.
  apply stays_inside_defined in Hrow.
  cbn [List.filter warnings].
  destruct (row_revenue price_idx units_idx row) as [v|e|]; [| |congruence];
    cbn; now rewrite IH.
Qed.



Lemma report_text total : report total = report_lines (fixed2 total).
Proof. reflexivity. Qed.

(** X25: on a table with both columns where no row sends the loop outside
    the row, the call returns.  It writes one warning for each row with a
    cell that does not convert and then the two lines of the report; when the
    total is not a NaN, its text is the total with two decimals.  The total
    is the sum of [price * units] over the rows that convert, in their order:
    taking a row that does not convert out of the table leaves the total as
    it is. *)
Theorem rows_that_do_not_convert_are_skipped st :
  data (reader st) <> [] ->
  has_column (reader st) "Price" = true ->
  has_column (reader st) "UnitsSold" = true ->
  forallb (stays_inside (price_index (reader st)) (units_index (reader st)))
    (data (reader st)) = true ->
  let price_idx := price_index (reader st) in
  let units_idx := units_index (reader st) in
  let rows := data (reader st) in
  (exists total_text,
      calculateTotalRevenue st
      = Done (with_console
                (console st ++ warnings price_idx units_idx rows
                   ++ report_lines total_text) st) /\
      (not_a_number (sum (revenues price_idx units_idx rows)) = false ->
       total_text = fixed2 (sum (revenues price_idx units_idx rows)))) /\
  length (warnings price_idx units_idx rows)
  = length (List.filter (fun row => negb (parses price_idx units_idx row)) rows) /\
  forall rows1 bad rows2,
    rows = rows1 ++ bad :: rows2 ->
    parses price_idx units_idx bad = false ->
    sum (revenues price_idx units_idx rows)
    = sum (revenues price_idx units_idx (rows1 ++ rows2)).
Proof.
  intros Hdata Hp Hu Hrows price_idx units_idx rows.
  split; [|split].
  - exists (fixed2 (sum (revenues price_idx units_idx rows))).
    split; [|reflexivity].
    rewrite calculateTotalRevenue_inside by assumption. now rewrite report_text.
  - now apply warnings_count.
  - intros rows1 bad rows2 -> Hbad. now rewrite revenues_without_bad_row.
Qed.

Lemma rows_that_do_not_convert_are_skipped_witness :
  calculateTotalRevenue bad_price_state
  = Done (with_console
            [ (Cerr, "[WARNING] Skipping row due to parsing error: stod" +:+ nl);
              (Cout, "--- Analysis Result ---" +:+ nl);
              (Cout, "Total Estimated Revenue: $10.00" +:+ nl +:+ nl) ]
            bad_price_state) /\
  calculateTotalRevenue six_rows_state
  = Done (with_console
            [ (Cerr, "[WARNING] Skipping row due to parsing error: stod" +:+ nl);
              (Cout, "--- Analysis Result ---" +:+ nl);
              (Cout, "Total Estimated Revenue: $38283.50" +:+ nl +:+ nl) ]
            six_rows_state).
Proof.
  split.
  - destruct (rows_that_do_not_convert_are_skipped bad_price_state
                ltac:(discriminate) eq_refl eq_refl eq_refl)
      as ((text & Hcall & Htext) & _).
    rewrite Hcall, (Htext eq_refl). reflexivity.
  - destruct (rows_that_do_not_convert_are_skipped six_rows_state
                ltac:(discriminate) eq_refl eq_refl eq_refl)
      as ((text & Hcall & Htext) & _).
    rewrite Hcall, (Htext eq_refl). reflexivity.
Defined.

(** C8: the example dataset is the mock file.  Loaded into an empty reader
    it gives five rows; the products [price * units] are 7498.5, 5850, 10320,
    7865 and 6750 as binary64 numbers, their running sum from [0.0] is
    38283.5, and the report writes it with two decimals after a dollar sign:
    [$38283.50]. *)
Theorem mock_file_total_revenue :
  let '(ok, st) := load MOCK_FILENAME fresh_state in
  ok = true /\
  headers (reader st) = ["ItemID"; "Category"; "Price"; "UnitsSold"; "Location"] /\
  length (data (reader st)) = 5%nat /\
  revenues (price_index (reader st)) (units_index (reader st)) (data (reader st))
  = [Prim2SF 7498.5; Prim2SF 5850; Prim2SF 10320; Prim2SF 7865; Prim2SF 6750] /\
  sum (revenues (price_index (reader st)) (units_index (reader st)) (data (reader st)))
  = Prim2SF 38283.5 /\
  calculateTotalRevenue st
  = Done (with_console
            (console st ++
               [ (Cout, "--- Analysis Result ---" +:+ nl);
                 (Cout, "Total Estimated Revenue: $38283.50" +:+ nl +:+ nl) ])
            st).
Proof.
  vm_compute. repeat split.
Qed.

(** C1, at a failing input: the second row of [short.csv] has two cells and
    the price is the third column.  The file loads, and the aggregate reaches
    the unchecked [row[price_idx]] outside the row: no exception is thrown
    there, so the row is not skipped and nothing is warned; the behaviour of
    the call is undefined.  A row that stops after its price cell does the
    same at [row[units_idx]]. *)
Theorem short_row_is_not_skipped :
  let '(ok, st) := load "short.csv" short_row_state in
  ok = true /\
  data (reader st) = [ ["101"; "Electronics"; "49.99"; "150"; "East"];
                       ["102"; "Books"];
                       ["103"; "Electronics"; "129.00"; "80"; "North"] ] /\
  has_cell ["102"; "Books"] (price_index (reader st)) = false /\
  calculateTotalRevenue st = Undefined /\
  revenue_loop (price_index (reader st)) (units_index (reader st))
    [["102"; "Books"; "19.50"]] zero [] = Undefined.
Proof.
  vm_compute. repeat split.
Qed.

(** C7, at a failing input: the file [data.csv] has a row with a price that
    is not a number, a row that stops after its price, and a row with both
    cells.  It loads; the first row throws and is skipped, and at the second
    the aggregate reaches the unchecked [row[units_idx]] outside the row, the
    same defect as in C1: the behaviour of the call, and of [main], is
    undefined, and the program does not go on to the third row and to the
    total.  Without the second row the total is that of the third row. *)
Theorem bad_row_before_short_row_gives_no_total :
  let '(ok, st) := load MOCK_FILENAME bad_then_short_state in
  let '(ok', st') := load MOCK_FILENAME bad_then_good_state in
  ok = true /\
  headers (reader st) = ["Price"; "UnitsSold"] /\
  data (reader st) = [["n/a"; "1"]; ["2.5"]; ["3"; "2"]] /\
  row_revenue (price_index (reader st)) (units_index (reader st)) ["n/a"; "1"]
  = Raise (invalid_argument "stod") /\
  row_revenue (price_index (reader st)) (units_index (reader st)) ["2.5"]
  = Undefined /\
  row_revenue (price_index (reader st)) (units_index (reader st)) ["3"; "2"]
  = Done (Prim2SF 6) /\
  calculateTotalRevenue st = Undefined /\
  main bad_then_short_state = Undefined /\
  ok' = true /\
  data (reader st') = [["n/a"; "1"]; ["3"; "2"]] /\
  calculateTotalRevenue st'
  = Done (with_console
            (console st' ++
               [ (Cerr, "[WARNING] Skipping row due to parsing error: stod" +:+ nl);
                 (Cout, "--- Analysis Result ---" +:+ nl);
                 (Cout, "Total Estimated Revenue: $6.00" +:+ nl +:+ nl) ])
            st').
Proof.
  vm_compute. repeat split.
Qed.

(** C6 as stated fails on a table that was loaded from a file with a header
    and no rows: the header has neither column, and the call writes the
    notice that there is no data, not the error. *)
Lemma header_only_table_reports_no_error :
  let '(ok, st) := load "header.csv" header_only_state in
  ok = true /\
  headers (reader st) = ["ItemID"; "Category"] /\
  has_column (reader st) "Price" = false /\
  calculateTotalRevenue st = Done (with_console (console st ++ [no_data_notice]) st) /\
  calculateTotalRevenue st <> Done (with_console (console st ++ [missing_column_error]) st).
Proof.
  vm_compute. repeat split. discriminate.
Qed.

(** C6, amended: when the header lacks a column named [Price] or one named
    [UnitsSold], the call returns, and the reader and the files are what they
    were; nothing was added up, for the only thing written is one line: the
    error about the columns when the table has a row, the notice that there
    is no data when it has none. *)
Theorem missing_column_aborts_aggregate st :
  has_column (reader st) "Price" = false \/
  has_column (reader st) "UnitsSold" = false ->
  exists st',
    calculateTotalRevenue st = Done st' /\
    reader st' = reader st /\
    files st' = files st /\
    console st'
    = console st ++ [ if bool_decide (data (reader st) = [])
                      then no_data_notice else missing_column_error ].
Proof.
  intros Hmissing. unfold calculateTotalRevenue.
  destruct (bool_decide (data (reader st) = [])); [eexists; repeat split|].
  assert (Hend : (find (headers (reader st)) "Price" =? length (headers (reader st)))%nat
                 || (find (headers (reader st)) "UnitsSold" =? length (headers (reader st)))%nat
                 = true).
  { unfold has_column in Hmissing. apply orb_true_iff.
    pose proof (find_le (headers (reader st)) "Price") as Hp.
    pose proof (find_le (headers (reader st)) "UnitsSold") as Hu.
    destruct Hmissing as [H%Nat.ltb_ge|H%Nat.ltb_ge]; [left|right];
      apply Nat.eqb_eq; lia. }
  rewrite Hend. eexists; repeat split.
Qed.

Lemma missing_column_aborts_aggregate_witness :
  exists st',
    calculateTotalRevenue no_units_state = Done st' /\
    reader st' = reader no_units_state /\
    files st' = files no_units_state /\
    console st' = [missing_column_error].
Proof.
  exact (missing_column_aborts_aggregate no_units_state (or_intror eq_refl)).
Defined.

(** ** Characters after a number *)

Lemma eqb_code a b : Ascii.eqb a b = true -> CLib.code a = CLib.code b.
Proof. intros ->%Ascii.eqb_eq. reflexivity. Qed.


Lemma code_eqb_false a b : CLib.code a <> CLib.code b -> Ascii.eqb a b = false.
Proof.
  intros H. destruct (Ascii.eqb a b) eqn:E; [|reflexivity].
  apply eqb_code in E. congruence.
Qed.









(** ** White space, sign and exponent around a number *)









(** ** The mantissa of a decimal literal *)





(** ** A numeral followed by characters without a digit *)










(** Other cells of the kind: a number and a word that starts with [e], a
    number and a unit, an exponent before the word, a point after an integer,
    [0] and an [x] that opens no hexadecimal number. *)
Example stod_with_tail :
  CLib.stod "49.99euros" = Done (Prim2SF 0x1.8feb851eb851fp+5) /\
  CLib.stod "-5kg" = Done (Prim2SF (-5)) /\
  CLib.stod "49.99abc" = Done (Prim2SF 0x1.8feb851eb851fp+5) /\
  CLib.stod " -1.5e1euros" = Done (Prim2SF (-15)) /\
  CLib.stod "7.E+" = Done (Prim2SF 7) /\
  CLib.stod "0xyz" = Done zero /\
  CLib.stoi "150x" = Done 150 /\
  CLib.stoi " -5kg" = Done (-5) /\
  CLib.stoi "12.5" = Done 12.
Proof. vm_compute. repeat split. Qed.

(** ** The library model on known values

    The expected doubles are written in hexadecimal, as [printf("%a")]
    shows them. *)

Example stod_decimal :
  CLib.stod "49.99" = Done (Prim2SF 0x1.8feb851eb851fp+5) /\
  CLib.stod "0.1" = Done (Prim2SF 0x1.999999999999ap-4) /\
  CLib.stod "  -1.5e3 units" = Done (Prim2SF (-1500)) /\
  CLib.stod "0.000001234" = Done (Prim2SF 0x1.4b3fd5942cd96p-20) /\
  CLib.stod "123456789012345678901234567890" = Done (Prim2SF 0x1.8ee90ff6c373ep+96) /\
  CLib.stod "9007199254740993" = Done (Prim2SF 0x1p+53) /\
  CLib.stod "-.5" = Done (Prim2SF (-0.5)) /\
  CLib.stod "5.e" = Done (Prim2SF 5).
Proof. vm_compute. repeat split. Qed.

Example stod_other_forms :
  CLib.stod "0x1.8p1" = Done (Prim2SF 3) /\
  CLib.stod "0x" = Done (S754_zero false) /\
  CLib.stod "-0" = Done (S754_zero true) /\
  CLib.stod "-INFinity" = Done (S754_infinity true) /\
  CLib.stod "nan" = Done S754_nan.
Proof. vm_compute. repeat split. Qed.

Example stod_range :
  CLib.stod "1e308" = Done (Prim2SF 0x1.1ccf385ebc8ap+1023) /\
  CLib.stod "1.7976931348623157e308" = Done (Prim2SF 0x1.fffffffffffffp+1023) /\
  CLib.stod "1.7976931348623159e308" = Raise (out_of_range "stod") /\
  CLib.stod "2.2250738585072014e-308" = Done (Prim2SF 0x1p-1022) /\
  CLib.stod "2.2250738585072011e-308" = Raise (out_of_range "stod") /\
  CLib.stod "1e-320" = Raise (out_of_range "stod") /\
  CLib.stod "0x1p-1074" = Done (Prim2SF 0x1p-1074) /\
  CLib.stod "0e-400" = Done (S754_zero false).
Proof. vm_compute. repeat split. Qed.

Example stod_no_conversion :
  CLib.stod "abc" = Raise (invalid_argument "stod") /\
  CLib.stod EmptyString = Raise (invalid_argument "stod") /\
  CLib.stod "." = Raise (invalid_argument "stod") /\
  CLib.stod "n/a" = Raise (invalid_argument "stod").
Proof. vm_compute. repeat split. Qed.

Example stoi_values :
  CLib.stoi " -150x" = Done (-150) /\
  CLib.stoi "+7" = Done 7 /\
  CLib.stoi "12.9" = Done 12 /\
  CLib.stoi "2147483647" = Done 2147483647 /\
  CLib.stoi "2147483648" = Raise (out_of_range "stoi") /\
  CLib.stoi "-2147483648" = Done (-2147483648) /\
  CLib.stoi "x1" = Raise (invalid_argument "stoi") /\
  CLib.stoi EmptyString = Raise (invalid_argument "stoi").
Proof. vm_compute. repeat split. Qed.

Example fixed2_values :
  fixed2 (Prim2SF 38283.5) = "38283.50" /\
  fixed2 (Prim2SF 0.125) = "0.12" /\
  fixed2 (Prim2SF (-0.375)) = "-0.38" /\
  fixed2 (Prim2SF 0x1.5666666666666p+1) = "2.67" /\
  fixed2 (Prim2SF 0x1.0147ae147ae14p+0) = "1.00" /\
  fixed2 (Prim2SF 0x1.0f0cf064dd592p+73) = "10000000000000000000000.00" /\
  fixed2 (S754_zero true) = "-0.00" /\
  fixed2 (S754_infinity false) = "inf".
Proof. vm_compute. repeat split. Qed.

(** ** More on splitting *)

Section MoreSplitting.

Variable delim : ascii.

Lemma split_on_app_delim l rest :
  contains delim l = false ->
  split_on delim (l +:+ String delim rest) = l :: split_on delim rest.
Proof.
  induction l as [|c l IH]; intros Hl.
  - rewrite append_nil_l. cbn [split_on]. now rewrite Ascii.eqb_refl.
  - cbn in Hl. apply orb_false_elim in Hl as [Hc Hl].
    rewrite append_cons. cbn [split_on]. rewrite Hc, (IH Hl). reflexivity.
Qed.

Lemma split_on_no_delim_id s :
  contains delim s = false -> split_on delim s = [s].
Proof.
  induction s as [|c s IH]; [reflexivity|]. cbn.
  intros [Hc Hs]%orb_false_elim. rewrite Hc, (IH Hs). reflexivity.
Qed.

Lemma split_on_join pieces :
  pieces <> [] ->
  Forall (fun piece => contains delim piece = false) pieces ->
  split_on delim (join delim pieces) = pieces.
Proof.
  intros Hne Hall. induction Hall as [|p ps Hp Hps IH]; [congruence|].
  destruct ps as [|q ps].
  - cbn [join]. now apply split_on_no_delim_id.
  - change (join delim (p :: q :: ps))
      with (p +:+ String delim (join delim (q :: ps))).
    rewrite split_on_app_delim by assumption.
    now rewrite IH.
Qed.

Lemma drop_trailing_empty_id pieces :
  last_non_empty pieces = true -> drop_trailing_empty pieces = pieces.
Proof.
  induction pieces as [|p ps IH]; [reflexivity|].
  destruct ps as [|q ps].
  - cbn. now destruct (is_empty p).
  - intros H. change (drop_trailing_empty (p :: q :: ps))
      with (p :: drop_trailing_empty (q :: ps)).
    now rewrite IH.
Qed.

(** The last piece of the split is empty exactly for the empty string and for
    a string that ends in the delimiter. *)
Lemma last_non_empty_split_on s :
  last_non_empty (split_on delim s) = negb (is_empty s || ends_with delim s).
Proof.
  induction s as [|c s IH]; [reflexivity|].
  pose proof (split_on_not_nil delim s) as Hne.
  cbn [split_on is_empty orb].
  destruct s as [|c' s'].
  - cbn. destruct (Ascii.eqb c delim); reflexivity.
  - change (ends_with delim (String c (String c' s')))
      with (ends_with delim (String c' s')).
    cbn [is_empty orb] in IH. rewrite <- IH.
    destruct (Ascii.eqb c delim).
    + destruct (split_on delim (String c' s')); [congruence | reflexivity].
    + pose proof (join_split_on delim (String c' s')) as Hj.
      destruct (split_on delim (String c' s')) as [|p ps]; [congruence|].
      destruct ps; [|reflexivity].
      cbn in Hj. subst p. reflexivity.
Qed.

Lemma ends_with_snoc s : ends_with delim s = true ->
  exists s', s = s' +:+ String delim EmptyString.
Proof.
  induction s as [|c s IH]; [discriminate|].
  destruct s as [|c' s'].
  - cbn. intros ->%Ascii.eqb_eq. now exists EmptyString.
  - change (ends_with delim (String c (String c' s')))
      with (ends_with delim (String c' s')).
    intros [t Ht]%IH. exists (String c t). rewrite append_cons. now rewrite Ht.
Qed.

Lemma length_split_on s :
  length (split_on delim s) = S (count_char delim s).
Proof.
  induction s as [|c s IH]; [reflexivity|].
  pose proof (split_on_not_nil delim s) as Hne.
  cbn [split_on count_char].
  destruct (Ascii.eqb c delim); cbn [length]; [now rewrite IH|].
  destruct (split_on delim s); [congruence|]. cbn in *. lia.
Qed.

Lemma drop_trailing_empty_length pieces :
  pieces <> [] ->
  length (drop_trailing_empty pieces)
  = if last_non_empty pieces then length pieces else pred (length pieces).
Proof.
  induction pieces as [|p ps IH]; [congruence|]. intros _.
  destruct ps as [|q ps].
  - cbn. destruct (is_empty p); reflexivity.
  - change (drop_trailing_empty (p :: q :: ps))
      with (p :: drop_trailing_empty (q :: ps)).
    change (last_non_empty (p :: q :: ps)) with (last_non_empty (q :: ps)).
    cbn [length]. rewrite IH by discriminate.
    destruct (last_non_empty (q :: ps)); reflexivity.
Qed.

(** Text without a delimiter added at the end of a string goes to the last
    piece. *)
Lemma split_on_app_tail s t init final :
  contains delim t = false ->
  split_on delim s = init ++ [final] ->
  split_on delim (s +:+ t) = init ++ [final +:+ t].
Proof.
  intros Ht. revert init final. induction s as [|c s IH]; intros init final Hs.
  - rewrite append_nil_l. cbn in Hs.
    destruct init as [|i init]; [|destruct init; discriminate].
    injection Hs as <-. now rewrite split_on_no_delim_id.
  - rewrite append_cons. cbn [split_on] in *.
    pose proof (split_on_not_nil delim s) as Hne.
    destruct (exists_last Hne) as (init' & final' & Hs').
    rewrite (IH _ _ Hs'). rewrite Hs' in Hs.
    destruct (Ascii.eqb c delim).
    + change (EmptyString :: init' ++ [final']) with ((EmptyString :: init') ++ [final']) in Hs.
      apply app_inj_tail in Hs as [<- <-]. reflexivity.
    + destruct init' as [|p init'].
      * cbn in *. destruct init as [|i init]; [|destruct init; discriminate].
        now injection Hs as <-.
      * cbn in *. change (String c p :: init' ++ [final'])
          with ((String c p :: init') ++ [final']) in Hs.
        apply app_inj_tail in Hs as [<- <-]. reflexivity.
Qed.

End MoreSplitting.

(** ** More on [parseRow] *)

Lemma comma_free_Forall cells :
  comma_free cells = true ->
  Forall (fun cell => contains COMMA cell = false) cells.
Proof.
  unfold comma_free. rewrite forallb_forall, List.Forall_forall.
  intros H cell Hin. now apply negb_true_iff, H.
Qed.

Lemma parseRow_not_nil line : is_empty line = false -> parseRow line <> [].
Proof.
  rewrite parseRow_spec. destruct line as [|c line]; [discriminate|]. intros _.
  pose proof (split_on_not_nil COMMA (String c line)) as Hne.
  pose proof (join_split_on COMMA (String c line)) as Hj.
  destruct (split_on COMMA (String c line)) as [|p ps]; [congruence|].
  destruct ps as [|q ps]; [|discriminate].
  cbn in Hj. subst p. discriminate.
Qed.

(** X1: [parseRow] returns no field at all only for the empty line: a line
    with at least one character has at least one field. *)
Theorem parseRow_nil_iff line :
  parseRow line = [] <-> line = EmptyString.
Proof.
  split; [|now intros ->].
  destruct line as [|c line]; [reflexivity|].
  intros H. now apply parseRow_not_nil in H.
Qed.

(** X2: fields written with commas between them are read back by [parseRow],
    when no field has a comma in it and the last field is not empty. *)
Theorem parseRow_join fields :
  comma_free fields = true ->
  last_non_empty fields = true ->
  parseRow (join COMMA fields) = fields.
Proof.
  intros Hfree%comma_free_Forall Hlast. rewrite parseRow_spec.
  destruct fields as [|f fields]; [reflexivity|].
  rewrite split_on_join by (assumption || discriminate).
  now apply drop_trailing_empty_id.
Qed.

Lemma parseRow_join_witness :
  parseRow (join COMMA ["a"; EmptyString; " b "; "d"]) = ["a"; EmptyString; " b "; "d"].
Proof.
  exact (parseRow_join ["a"; EmptyString; " b "; "d"] eq_refl eq_refl).
Defined.

(** X3: the fields of a line joined with commas give the line back, up to
    one comma at its end: exactly the line when it does not end in a comma,
    and the line without its last comma when it does. *)
Theorem join_parseRow :
  (forall line, ends_with COMMA line = false -> join COMMA (parseRow line) = line) /\
  (forall s, join COMMA (parseRow (s +:+ ",")) = s).
Proof.
  split.
  - intros line Hend. rewrite parseRow_spec.
    destruct line as [|c line]; [reflexivity|].
    rewrite drop_trailing_empty_id; [apply join_split_on|].
    rewrite last_non_empty_split_on, Hend. reflexivity.
  - intros s. rewrite parseRow_comma_terminated. apply join_split_on.
Qed.

Lemma join_parseRow_witness :
  join COMMA (parseRow "a,b,,d") = "a,b,,d".
Proof.
  exact (proj1 join_parseRow "a,b,,d" eq_refl).
Defined.

(** X4: the number of fields is the number of commas of the line, and one
    more when the line is not empty and does not end in a comma. *)
Theorem parseRow_length line :
  length (parseRow line)
  = (count_char COMMA line
     + if is_empty line || ends_with COMMA line then 0 else 1)%nat.
Proof.
  rewrite parseRow_spec, drop_trailing_empty_length by apply split_on_not_nil.
  rewrite last_non_empty_split_on, length_split_on.
  destruct (is_empty line || ends_with COMMA line); cbn; lia.
Qed.

(** X5: nothing is trimmed at the end of a line: characters without a comma
    that follow a line (a carriage return, spaces) become the end of its last
    cell. *)
Theorem parseRow_keeps_tail s t init final :
  contains COMMA t = false ->
  is_empty t = false ->
  split_on COMMA s = init ++ [final] ->
  parseRow (s +:+ t) = init ++ [final +:+ t].
Proof.
  intros Ht Hne Hs. rewrite parseRow_spec.
  rewrite (split_on_app_tail COMMA s t init final Ht Hs).
  apply drop_trailing_empty_id.
  clear Hs. induction init as [|i init IH].
  - cbn. destruct final; [now destruct t | reflexivity].
  - destruct init; exact IH.
Qed.

Lemma parseRow_keeps_tail_witness :
  parseRow ("Price,UnitsSold" +:+ String "013" EmptyString)
  = ["Price"; "UnitsSold" +:+ String "013" EmptyString].
Proof.
  exact (parseRow_keeps_tail "Price,UnitsSold" (String "013" EmptyString)
           ["Price"] "UnitsSold" eq_refl eq_refl eq_refl).
Defined.

(** ** More on [createMockFile] and [load] *)

Lemma file_exists_modern_spec st filename :
  file_exists_modern st filename = true <-> files st !! filename <> None.
Proof.
  unfold file_exists_modern. rewrite bool_decide_eq_true, <- not_eq_None_Some.
  reflexivity.
Qed.

Lemma createMockFile_frame st :
  reader (createMockFile st) = reader st /\
  mock_creatable (createMockFile st) = mock_creatable st.
Proof.
  unfold createMockFile.
  destruct (files st !! MOCK_FILENAME); [split; reflexivity|].
  destruct (mock_creatable st) eqn:E; split; cbn; congruence.
Qed.

Lemma createMockFile_lookup st p :
  p <> MOCK_FILENAME \/ file_exists_modern st MOCK_FILENAME = true ->
  files (createMockFile st) !! p = files st !! p.
Proof.
  intros H. unfold createMockFile.
  destruct (files st !! MOCK_FILENAME) eqn:E; [reflexivity|].
  destruct H as [Hne | Hex%file_exists_modern_spec]; [|congruence].
  destruct (mock_creatable st); [|reflexivity].
  cbn [print files]. now rewrite lookup_insert_ne.
Qed.

Lemma createMockFile_exists st :
  file_exists_modern st MOCK_FILENAME = true ->
  files (createMockFile st) = files st.
Proof.
  intros Hex%file_exists_modern_spec. unfold createMockFile.
  destruct (files st !! MOCK_FILENAME); [reflexivity | congruence].
Qed.

Lemma createMockFile_files_again st st' :
  files st' = files (createMockFile st) ->
  mock_creatable st' = mock_creatable st ->
  files (createMockFile st') = files st'.
Proof.
  intros Hfiles Hc.
  assert (Hcase : files st' !! MOCK_FILENAME <> None \/ mock_creatable st' = false).
  { rewrite Hfiles, Hc. unfold createMockFile.
    destruct (files st !! MOCK_FILENAME) eqn:E.
    - left. cbn [print files]. congruence.
    - destruct (mock_creatable st); [left | now right].
      cbn [print files]. now rewrite lookup_insert_eq. }
  unfold createMockFile.
  destruct (files st' !! MOCK_FILENAME); [reflexivity|].
  destruct Hcase as [?| ->]; [congruence | reflexivity].
Qed.

(** X6: [createMockFile] writes at most the mock file, and only when there is
    no file of that name: every other path, and the mock file when it exists,
    is left as it was. *)
Theorem createMockFile_preserves st p :
  p <> MOCK_FILENAME \/ file_exists_modern st MOCK_FILENAME = true ->
  files (createMockFile st) !! p = files st !! p /\
  open_for_reading (createMockFile st) p = open_for_reading st p.
Proof.
  intros H. unfold open_for_reading. now rewrite createMockFile_lookup.
Qed.

(** X7: calling [createMockFile] again changes no file: after the first call
    the mock file is there, or it could not be created and still cannot. *)
Theorem createMockFile_idempotent st :
  files (createMockFile (createMockFile st)) = files (createMockFile st).
Proof.
  apply (createMockFile_files_again st); [reflexivity|].
  apply createMockFile_frame.
Qed.

Lemma createMockFile_preserves_witness :
  files (createMockFile loaded_state) !! "locked.csv" = Some Unreadable /\
  open_for_reading (createMockFile loaded_state) "locked.csv" = None.
Proof.
  assert (Hne : "locked.csv" <> MOCK_FILENAME) by discriminate.
  destruct (createMockFile_preserves loaded_state "locked.csv" (or_introl Hne))
    as [Hfiles Hopen].
  rewrite Hfiles, Hopen. split; reflexivity.
Defined.

Lemma load_opened_state filename st contents :
  open_for_reading (createMockFile st) filename = Some contents ->
  load filename st
  = (true,
     print Cout (snd (loaded_message
                        (length (data (ingest (text_lines contents) true (reader st))))
                        filename))
       (set_reader (ingest (text_lines contents) true (reader st))
          (createMockFile st))).
Proof.
  intros Hopen. unfold load. rewrite Hopen, load_loop_ingest.
  cbn [default]. now rewrite reader_createMockFile.
Qed.

Lemma load_files filename st :
  files (snd (load filename st)) = files (createMockFile st) /\
  mock_creatable (snd (load filename st)) = mock_creatable st.
Proof.
  unfold load.
  destruct (open_for_reading (createMockFile st) filename); cbn;
    (split; [reflexivity | apply createMockFile_frame]).
Qed.

Lemma ingest_header lines r :
  ingest lines true r
  = {| data := data r ++ List.map parseRow
                 (tl (List.filter (fun l => negb (is_empty l)) lines));
       headers := match List.filter (fun l => negb (is_empty l)) lines with
                  | [] => headers r
                  | first :: _ => parseRow first
                  end |}.
Proof.
  unfold ingest. destruct (List.filter _ lines); cbn [tl List.map];
    [rewrite app_nil_r; now destruct r | reflexivity].
Qed.

(** X8: what a load that opens its file does, whatever the reader holds: the
    header becomes the fields of the first non-empty line of the file (it
    stays when the file has none), the rows of the file are added after the
    rows already there, no file changes but for the mock file that
    [createMockFile] may create, and the one line written after those of
    [createMockFile] reports the size of the whole table. *)
Theorem load_effect filename st contents :
  open_for_reading (createMockFile st) filename = Some contents ->
  exists st',
    load filename st = (true, st') /\
    headers (reader st') = match non_empty_lines contents with
                           | [] => headers (reader st)
                           | first :: _ => parseRow first
                           end /\
    data (reader st')
    = data (reader st) ++ List.map parseRow (tl (non_empty_lines contents)) /\
    files st' = files (createMockFile st) /\
    console st'
    = console (createMockFile st)
        ++ [loaded_message (length (data (reader st'))) filename].
Proof.
  intros Hopen. rewrite (load_opened_state _ _ _ Hopen).
  eexists. split; [reflexivity|].
  cbn [print set_reader reader files console]. rewrite ingest_header.
  cbn [headers data]. repeat split.
Qed.

Lemma load_effect_witness :
  exists st',
    load "second.csv" (snd (load "first.csv" two_files_state)) = (true, st') /\
    headers (reader st') = ["Code"; "Amount"] /\
    data (reader st') = [["1"; "2.5"]; ["7"; "9.5"]] /\
    last (console st') = Some (loaded_message 2 "second.csv").
Proof.
  assert (Hopen : open_for_reading
                    (createMockFile (snd (load "first.csv" two_files_state)))
                    "second.csv" = Some second_contents)
    by (vm_compute; reflexivity).
  destruct (load_effect _ _ _ Hopen) as (st' & Hload & Hh & Hd & _ & Hc).
  exists st'. rewrite Hh, Hc, Hd, last_snoc.
  repeat split; try assumption; reflexivity.
Defined.

(** X9: a file that is empty, or has only empty lines, loads with success and
    leaves the header and the rows of the reader as they were. *)
Theorem load_blank_file filename st contents :
  open_for_reading (createMockFile st) filename = Some contents ->
  non_empty_lines contents = [] ->
  exists st',
    load filename st = (true, st') /\
    reader st' = reader st /\
    console st'
    = console (createMockFile st)
        ++ [loaded_message (length (data (reader st))) filename].
Proof.
  intros Hopen Hblank. rewrite (load_opened_state _ _ _ Hopen).
  eexists. split; [reflexivity|].
  cbn [print set_reader reader console]. unfold ingest.
  fold (non_empty_lines contents). rewrite Hblank. split; reflexivity.
Qed.

(** X10: [load] changes no file other than the mock file, and not the mock
    file either when it exists. *)
Theorem load_preserves_files filename st p :
  p <> MOCK_FILENAME \/ file_exists_modern st MOCK_FILENAME = true ->
  files (snd (load filename st)) !! p = files st !! p.
Proof.
  intros H. rewrite (proj1 (load_files filename st)).
  now apply createMockFile_lookup.
Qed.

(** X11: loading the same file a second time adds its rows once more: the
    table then has them twice, under the same header. *)
Theorem load_twice_same_file filename st contents :
  open_for_reading (createMockFile st) filename = Some contents ->
  exists st1 st2,
    load filename st = (true, st1) /\
    load filename st1 = (true, st2) /\
    data (reader st2)
    = data (reader st) ++ List.map parseRow (tl (non_empty_lines contents))
        ++ List.map parseRow (tl (non_empty_lines contents)) /\
    headers (reader st2) = headers (reader st1).
Proof.
  intros Hopen.
  pose proof (load_opened_state _ _ _ Hopen) as H1.
  destruct (load filename st) as [ok1 st1] eqn:E1. injection H1 as -> Hst1.
  assert (Hopen1 : open_for_reading (createMockFile st1) filename = Some contents).
  { pose proof (load_files filename st) as [Hf Hc]. rewrite E1 in Hf, Hc. cbn in Hf, Hc.
    unfold open_for_reading in *.
    now rewrite (createMockFile_files_again st st1 Hf Hc), Hf. }
  pose proof (load_opened_state _ _ _ Hopen1) as H2.
  exists st1, (snd (load filename st1)). rewrite H2. cbn [snd].
  split; [reflexivity|]. split; [reflexivity|].
  cbn [print set_reader reader]. rewrite Hst1. cbn [print set_reader reader].
  rewrite !ingest_header. cbn [data headers]. fold (non_empty_lines contents).
  rewrite <- app_assoc. split; [reflexivity|].
  destruct (non_empty_lines contents); reflexivity.
Qed.

Lemma load_blank_file_witness :
  exists st',
    load "blank.csv" reload_state = (true, st') /\
    reader st' = reader reload_state /\
    last (console st') = Some (loaded_message 1 "blank.csv").
Proof.
  assert (Hopen : open_for_reading (createMockFile reload_state) "blank.csv"
                  = Some (nl +:+ nl)) by (vm_compute; reflexivity).
  destruct (load_blank_file _ _ _ Hopen eq_refl) as (st' & Hload & Hr & Hc).
  exists st'. rewrite Hc, last_snoc. repeat split; assumption.
Defined.

Lemma load_preserves_files_witness :
  files (snd (load "more.csv" reload_state)) !! "blank.csv"
  = Some (Readable (nl +:+ nl)).
Proof.
  assert (Hne : "blank.csv" <> MOCK_FILENAME) by discriminate.
  rewrite (load_preserves_files "more.csv" reload_state "blank.csv" (or_introl Hne)).
  reflexivity.
Defined.

Lemma load_twice_same_file_witness :
  exists st1 st2,
    load "more.csv" reload_state = (true, st1) /\
    load "more.csv" st1 = (true, st2) /\
    data (reader st2) = [["1"; "2.5"]; ["2"; "3.5"]; ["2"; "3.5"]].
Proof.
  assert (Hopen : open_for_reading (createMockFile reload_state) "more.csv"
                  = Some ("ItemID,Price" +:+ nl +:+ "2,3.5" +:+ nl))
    by (vm_compute; reflexivity).
  destruct (load_twice_same_file _ _ _ Hopen) as (st1 & st2 & H1 & H2 & Hd & _).
  exists st1, st2. rewrite Hd. repeat split; assumption.
Defined.

(** ** Cells stay free of commas and line feeds *)

Lemma split_on_absent delim c s :
  contains c s = false ->
  Forall (fun piece => contains c piece = false) (split_on delim s).
Proof.
  induction s as [|a s IH]; [repeat constructor|].
  cbn. intros [Ha Hs]%orb_false_elim. specialize (IH Hs).
  destruct (Ascii.eqb a delim); [constructor; [reflexivity | exact IH]|].
  destruct (split_on delim s) as [|p ps].
  - repeat constructor. cbn. now rewrite Ha.
  - inversion IH; subst. constructor; [cbn; now rewrite Ha | assumption].
Qed.

Lemma Forall_drop_trailing_empty (P : string -> Prop) pieces :
  Forall P pieces -> Forall P (drop_trailing_empty pieces).
Proof.
  induction 1 as [|p ps Hp Hps IH]; [constructor|].
  destruct ps as [|q ps].
  - cbn. destruct (is_empty p); repeat constructor; assumption.
  - change (drop_trailing_empty (p :: q :: ps))
      with (p :: drop_trailing_empty (q :: ps)).
    now constructor.
Qed.

Lemma text_lines_no_LF contents :
  Forall (fun l => contains LF l = false) (text_lines contents).
Proof. apply Forall_drop_trailing_empty, split_on_no_delim. Qed.

Lemma parseRow_clean line :
  contains LF line = false -> is_empty line = false ->
  negb (bool_decide (parseRow line = [])) && forallb clean_cell (parseRow line) = true.
Proof.
  intros HLF Hne. apply andb_true_intro. split.
  - apply negb_true_iff, bool_decide_eq_false. now apply parseRow_not_nil.
  - rewrite parseRow_spec. apply forallb_forall. intros cell Hin.
    pose proof (Forall_drop_trailing_empty _ _ (split_on_no_delim COMMA line)) as H1.
    pose proof (Forall_drop_trailing_empty _ _ (split_on_absent COMMA LF line HLF)) as H2.
    rewrite List.Forall_forall in H1, H2. unfold clean_cell.
    now rewrite (H1 _ Hin), (H2 _ Hin).
Qed.

Lemma ingest_clean lines is_header r :
  Forall (fun l => contains LF l = false) lines ->
  clean_reader r = true ->
  clean_reader (ingest lines is_header r) = true.
Proof.
  intros Hlines Hr. unfold ingest.
  assert (Hrows : Forall (fun l => negb (bool_decide (parseRow l = []))
                                   && forallb clean_cell (parseRow l) = true)
                    (List.filter (fun l => negb (is_empty l)) lines)).
  { rewrite List.Forall_forall in *. intros l [Hin Hne%negb_true_iff]%filter_In.
    apply parseRow_clean; auto. }
  unfold clean_reader in *. apply andb_prop in Hr as [Hh Hd].
  destruct (List.filter _ lines) as [|first others]; [now rewrite Hh, Hd|].
  assert (Hall : forall ls,
             Forall (fun l => negb (bool_decide (parseRow l = []))
                              && forallb clean_cell (parseRow l) = true) ls ->
             forallb (fun row => negb (bool_decide (row = [])) && forallb clean_cell row)
               (data r ++ List.map parseRow ls) = true).
  { intros ls Hls. rewrite forallb_app, Hd. cbn [andb].
    induction Hls as [|l ls Hl _ IH]; [reflexivity|].
    cbn [List.map forallb]. now rewrite Hl, IH. }
  inversion Hrows as [|? ? Hfirst Hothers]; subst.
  destruct is_header; cbn [headers data].
  - rewrite (Hall _ Hothers). apply andb_prop in Hfirst as [_ ->]. reflexivity.
  - rewrite (Hall _ Hrows), Hh. reflexivity.
Qed.

(** X12: [load] keeps the table clean.  If no cell of the reader has a comma
    or a line feed in it and no row is without cells, the same holds after
    the load, whatever the file contains and whether or not it could be
    opened. *)
Theorem load_keeps_cells_clean filename st :
  clean_reader (reader st) = true ->
  clean_reader (reader (snd (load filename st))) = true.
Proof.
  intros Hclean.
  destruct (open_for_reading (createMockFile st) filename) as [contents|] eqn:Hopen.
  - rewrite (load_opened_state _ _ _ Hopen). cbn [snd print set_reader reader].
    apply ingest_clean; [apply text_lines_no_LF | assumption].
  - unfold load. rewrite Hopen. cbn [snd print reader].
    now rewrite reader_createMockFile.
Qed.

Lemma load_keeps_cells_clean_witness :
  clean_reader (reader (snd (load "more.csv" reload_state))) = true.
Proof.
  exact (load_keeps_cells_clean "more.csv" reload_state eq_refl).
Defined.

(** ** More on [calculateTotalRevenue] *)

Lemma to_int_small z : 0 <= z < 2 ^ 31 -> to_int z = z.
Proof. intros H. unfold to_int. rewrite Z.mod_small; lia. Qed.

Lemma find_first pre x post :
  forallb (fun h => negb (String.eqb h x)) pre = true ->
  find (pre ++ x :: post) x = length pre.
Proof.
  induction pre as [|h pre IH]; cbn.
  - now rewrite String.eqb_refl.
  - intros [Hh Hpre]%andb_prop. apply negb_true_iff in Hh. rewrite Hh.
    now rewrite IH.
Qed.

Lemma revenue_loop_console price_idx units_idx rows total out total' out' :
  revenue_loop price_idx units_idx rows total out = Done (total', out') ->
  exists more, out' = out ++ more.
Proof.
  revert total out. induction rows as [|row rows IH]; intros total out; cbn [revenue_loop].
  - intros [= <- <-]. exists []. now rewrite app_nil_r.
  - destruct (row_revenue price_idx units_idx row) as [v|e|]; [| |discriminate].
    + apply IH.
    + intros [more ->]%IH. exists (warning e :: more). now rewrite <- app_assoc.
Qed.

Lemma revenue_loop_no_raise price_idx units_idx rows total out e :
  revenue_loop price_idx units_idx rows total out <> Raise e.
Proof.
  revert total out. induction rows as [|row rows IH]; intros total out; cbn [revenue_loop].
  - discriminate.
  - destruct (row_revenue price_idx units_idx row); [apply IH | apply IH | discriminate].
Qed.

Lemma forallb_false_In {A} (f : A -> bool) l :
  forallb f l = false -> exists x, In x l /\ f x = false.
Proof.
  induction l as [|a l IH]; [discriminate|]. cbn.
  destruct (f a) eqn:Ha; [|intros _; exists a; auto].
  intros [x [Hin Hx]]%IH. exists x. auto.
Qed.

Lemma calculateTotalRevenue_returns st :
  rectangular (reader st) = true ->
  exists st',
    calculateTotalRevenue st = Done st' /\
    reader st' = reader st /\ files st' = files st.
Proof.
  unfold rectangular. intros [Hsize%Z.ltb_lt Hrows]%andb_prop.
  unfold calculateTotalRevenue.
  destruct (bool_decide _); [eexists; repeat split|].
  pose proof (find_le (headers (reader st)) "Price") as Hp.
  pose proof (find_le (headers (reader st)) "UnitsSold") as Hu.
  destruct (Nat.eqb_spec (find (headers (reader st)) "Price") (length (headers (reader st))));
    [eexists; repeat split|].
  destruct (Nat.eqb_spec (find (headers (reader st)) "UnitsSold") (length (headers (reader st))));
    [eexists; repeat split|].
  cbn [orb]. rewrite !to_int_small by lia.
  rewrite revenue_loop_spec; [eexists; repeat split|].
  rewrite forallb_forall in Hrows. apply List.Forall_forall. intros row Hin.
  specialize (Hrows row Hin). apply Nat.leb_le in Hrows.
  unfold has_cell. split; apply andb_true_intro; split;
    try (apply Z.leb_le; lia); apply Z.ltb_lt; lia.
Qed.

(** X13: on a table where no row is shorter than the header the call always
    returns, whatever the cells hold: with the reader and the files as they
    were. *)
Theorem calculateTotalRevenue_rectangular st :
  rectangular (reader st) = true ->
  exists st',
    calculateTotalRevenue st = Done st' /\
    reader st' = reader st /\ files st' = files st.
Proof. apply calculateTotalRevenue_returns. Qed.

Lemma calculateTotalRevenue_rectangular_witness :
  exists st',
    calculateTotalRevenue six_rows_state = Done st' /\
    reader st' = reader six_rows_state /\ files st' = files six_rows_state.
Proof.
  exact (calculateTotalRevenue_rectangular six_rows_state eq_refl).
Defined.

(** X14: a column is looked up by its first occurrence: when the name is at
    position [n] of the header and not before, the index used for it is [n],
    whatever follows, also a second column of the same name. *)
Theorem first_column_of_a_name_is_used r name before after :
  headers r = before ++ name :: after ->
  forallb (fun h => negb (String.eqb h name)) before = true ->
  (Z.of_nat (length before) <? 2 ^ 31) = true ->
  has_column r name = true /\
  to_int (Z.of_nat (find (headers r) name)) = Z.of_nat (length before).
Proof.
  intros Hh Hbefore Hsize%Z.ltb_lt. unfold has_column.
  rewrite Hh, find_first by assumption. split.
  - apply Nat.ltb_lt. rewrite length_app. cbn. lia.
  - apply to_int_small. lia.
Qed.

Lemma first_column_of_a_name_is_used_witness :
  has_column two_prices_reader "Price" = true /\
  price_index two_prices_reader = 1.
Proof.
  exact (first_column_of_a_name_is_used two_prices_reader "Price"
           ["UnitsSold"] ["Price"] eq_refl eq_refl eq_refl).
Defined.

(** X15: only the two cells at the price index and at the units index of a
    row are read: two tables whose rows agree on these give the same total
    and the same warnings. *)
Theorem revenue_reads_two_cells price_idx units_idx rows rows' total out :
  Forall2 (fun row row' =>
             vec_index row price_idx = vec_index row' price_idx /\
             vec_index row units_idx = vec_index row' units_idx) rows rows' ->
  revenue_loop price_idx units_idx rows total out
  = revenue_loop price_idx units_idx rows' total out.
Proof.
  intros H. revert total out.
  induction H as [|row row' rows rows' [Hp Hu] _ IH]; intros total out; [reflexivity|].
  cbn [revenue_loop]. unfold row_revenue. rewrite Hp, Hu.
  destruct (_ ≫= _); [apply IH | apply IH | reflexivity].
Qed.

Lemma revenue_reads_two_cells_witness :
  revenue_loop 2 3 [["101"; "Electronics"; "49.99"; "150"; "East"]] zero []
  = revenue_loop 2 3 [[EmptyString; "x,y"; "49.99"; "150"]] zero [].
Proof.
  apply (revenue_reads_two_cells 2 3).
  constructor; [split; reflexivity | constructor].
Defined.

(** X16: the price is converted before the units cell is looked at.  A row
    whose price cell does not convert is skipped with the warning of [stod],
    whatever the units index: also when the row has no cell there. *)
Theorem bad_price_hides_units_cell price_idx units_idx row cell e rows total out :
  vec_index row price_idx = Done cell ->
  CLib.stod cell = Raise e ->
  row_revenue price_idx units_idx row = Raise e /\
  revenue_loop price_idx units_idx (row :: rows) total out
  = revenue_loop price_idx units_idx rows total (out ++ [warning e]).
Proof.
  intros Hcell Hstod.
  assert (H : row_revenue price_idx units_idx row = Raise e).
  { unfold row_revenue. rewrite Hcell. cbn. rewrite Hstod. reflexivity. }
  split; [exact H|]. cbn [revenue_loop]. now rewrite H.
Qed.

Lemma bad_price_hides_units_cell_witness :
  has_cell ["102"; "n/a"] 2 = false /\
  calculateTotalRevenue bad_price_state
  = Done (with_console
            [ (Cerr, "[WARNING] Skipping row due to parsing error: stod" +:+ nl);
              (Cout, "--- Analysis Result ---" +:+ nl);
              (Cout, "Total Estimated Revenue: $10.00" +:+ nl +:+ nl) ]
            bad_price_state).
Proof.
  split; [reflexivity|].
  destruct (bad_price_hides_units_cell 1 2 ["102"; "n/a"] "n/a"
              (invalid_argument "stod") [["103"; "2.5"; "4"]] zero []
              eq_refl eq_refl) as [_ Hloop].
  unfold calculateTotalRevenue. cbn [bool_decide decide_rel].
  change (revenue_loop _ _ (data (reader bad_price_state)) zero (console bad_price_state))
    with (revenue_loop 1 2 (["102"; "n/a"] :: [["103"; "2.5"; "4"]]) zero []).
  rewrite Hloop. reflexivity.
Defined.

(** X17: a call that returns has only written to the console: the reader and
    the files are what they were, what was on the console is still there, and
    at least one line was added. *)
Theorem calculateTotalRevenue_frame st st' :
  calculateTotalRevenue st = Done st' ->
  reader st' = reader st /\ files st' = files st /\
  mock_creatable st' = mock_creatable st /\
  exists more, more <> [] /\ console st' = console st ++ more.
Proof.
  unfold calculateTotalRevenue.
  destruct (bool_decide _).
  { intros [= <-]. repeat split. eexists. split; [|reflexivity]. discriminate. }
  destruct (_ || _).
  { intros [= <-]. repeat split. eexists. split; [|reflexivity]. discriminate. }
  destruct (revenue_loop _ _ _ _ _) as [[total out]|e|] eqn:Hloop; cbn; try discriminate.
  intros [= <-]. repeat split.
  apply revenue_loop_console in Hloop as [more ->].
  exists (more ++ report total). split; [|cbn; now rewrite <- app_assoc].
  destruct more; discriminate.
Qed.

Lemma calculateTotalRevenue_frame_witness :
  exists more,
    more <> [] /\
    console (with_console [missing_column_error] no_units_state)
    = console no_units_state ++ more.
Proof.
  exact (proj2 (proj2 (proj2 (calculateTotalRevenue_frame no_units_state
                                (with_console [missing_column_error] no_units_state)
                                eq_refl)))).
Defined.

(** X18: the behaviour of the call is undefined only on a table that has the
    two columns and a row without a cell at the index of one of them. *)
Theorem calculateTotalRevenue_undefined_only_short_row st :
  calculateTotalRevenue st = Undefined ->
  has_column (reader st) "Price" = true /\
  has_column (reader st) "UnitsSold" = true /\
  exists row,
    In row (data (reader st)) /\
    has_cell row (price_index (reader st))
    && has_cell row (units_index (reader st)) = false.
Proof.
  intros Hundef.
  destruct (has_column (reader st) "Price") eqn:Hp;
    destruct (has_column (reader st) "UnitsSold") eqn:Hu;
    try (exfalso; revert Hundef; unfold calculateTotalRevenue, has_column in *;
         destruct (bool_decide _); [discriminate|];
         apply Nat.ltb_ge in Hp || apply Nat.ltb_ge in Hu;
         pose proof (find_le (headers (reader st)) "Price");
         pose proof (find_le (headers (reader st)) "UnitsSold");
         match goal with
         | |- context [(?a =? ?b)%nat || (?c =? ?d)%nat] =>
             destruct (Nat.eqb_spec a b); destruct (Nat.eqb_spec c d);
             cbn; try discriminate; lia
         end).
  repeat split.
  destruct (bool_decide (data (reader st) = [])) eqn:Hd.
  { unfold calculateTotalRevenue in Hundef. rewrite Hd in Hundef. discriminate. }
  apply bool_decide_eq_false in Hd.
  rewrite calculateTotalRevenue_columns in Hundef by assumption.
  destruct (forallb (fun row => has_cell row (price_index (reader st))
                                && has_cell row (units_index (reader st)))
              (data (reader st))) eqn:Hall.
  - rewrite revenue_loop_spec in Hundef by now apply forallb_has_cells.
    discriminate.
  - now apply forallb_false_In in Hall.
Qed.

Lemma calculateTotalRevenue_undefined_only_short_row_witness :
  exists row,
    In row (data (reader (snd (load "short.csv" short_row_state)))) /\
    has_cell row 2 && has_cell row 3 = false.
Proof.
  exact (proj2 (proj2 (calculateTotalRevenue_undefined_only_short_row
                         (snd (load "short.csv" short_row_state)) eq_refl))).
Defined.

(** X19: no exception leaves the call: what [std::stod] and [std::stoi] throw
    is caught in the loop. *)
Theorem calculateTotalRevenue_throws_nothing st e :
  calculateTotalRevenue st <> Raise e.
Proof.
  unfold calculateTotalRevenue.
  destruct (bool_decide _); [discriminate|].
  destruct (_ || _); [discriminate|].
  pose proof (revenue_loop_no_raise
                (to_int (Z.of_nat (find (headers (reader st)) "Price")))
                (to_int (Z.of_nat (find (headers (reader st)) "UnitsSold")))
                (data (reader st)) zero (console st)) as Hloop.
  destruct (revenue_loop _ _ _ _ _) as [[total out]|e'|]; cbn; try discriminate.
  intros [= ->]. now apply (Hloop e).
Qed.

(** ** Properties of [printTable] *)

Lemma length_append a b :
  String.length (a +:+ b) = (String.length a + String.length b)%nat.
Proof.
  induction a as [|c a IH]; [reflexivity|]. rewrite append_cons. cbn. now rewrite IH.
Qed.

Lemma length_fill n c : String.length (fill n c) = n.
Proof. induction n as [|n IH]; [reflexivity|]. cbn. now rewrite IH. Qed.

Lemma length_setw_left w s :
  String.length (setw_left w s) = Nat.max w (String.length s).
Proof. unfold setw_left. rewrite length_append, length_fill. lia. Qed.

Lemma text_on_app o out out' :
  text_on o (out ++ out') = text_on o out +:+ text_on o out'.
Proof.
  induction out as [|[o' text] out IH]; [reflexivity|].
  cbn [app text_on]. destruct (same_stream o o'); [|exact IH].
  now rewrite IH, append_assoc.
Qed.

Lemma print_cells_spec cells st :
  print_cells cells st
  = with_console (console st ++ List.map (fun cell => (Cout, setw_left 15 cell)) cells) st.
Proof.
  unfold print_cells. revert st. induction cells as [|cell cells IH]; intros st.
  - cbn. rewrite app_nil_r. now destruct st.
  - cbn [fold_left List.map]. rewrite IH. unfold print, with_console. cbn.
    now rewrite <- app_assoc.
Qed.

Lemma text_on_cells cells :
  text_on Cout (List.map (fun cell => (Cout, setw_left 15 cell)) cells) = render_row cells
  /\ text_on Cerr (List.map (fun cell => (Cout, setw_left 15 cell)) cells) = EmptyString.
Proof.
  induction cells as [|cell cells [IH1 IH2]]; [split; reflexivity|].
  cbn [List.map text_on same_stream render_row]. now rewrite IH1, IH2.
Qed.

Lemma print_rows_spec rows st :
  exists out,
    fold_left (fun st row => print Cout nl (print_cells row st)) rows st
    = with_console (console st ++ out) st /\
    text_on Cout out = render_rows rows /\ text_on Cerr out = EmptyString.
Proof.
  revert st. induction rows as [|row rows IH]; intros st.
  - exists []. cbn. rewrite app_nil_r. now destruct st.
  - cbn [fold_left]. destruct (IH (print Cout nl (print_cells row st))) as (out & -> & H1 & H2).
    exists (List.map (fun cell => (Cout, setw_left 15 cell)) row ++ (Cout, nl) :: out).
    rewrite print_cells_spec. unfold print, with_console. cbn.
    destruct (text_on_cells row) as [Hc1 Hc2].
    rewrite <- !app_assoc, !text_on_app, Hc1, Hc2. cbn [text_on same_stream app].
    rewrite H1, H2. repeat split.
Qed.

Lemma printTable_spec st :
  reader (printTable st) = reader st /\
  files (printTable st) = files st /\
  text_on Cerr (console (printTable st)) = text_on Cerr (console st) /\
  text_on Cout (console (printTable st))
  = text_on Cout (console st)
      +:+ (if bool_decide (data (reader st) = [])
           then "[INFO] No data loaded." +:+ nl
           else render_table (reader st)).
Proof.
  unfold printTable. destruct (bool_decide _).
  { cbn [print reader files console]. rewrite !text_on_app. cbn.
    rewrite append_nil_r. repeat split. }
  rewrite print_cells_spec.
  destruct (print_rows_spec (data (reader st))
              (print Cout (fill (length (headers (reader st)) * 15) "-" +:+ nl)
                 (print Cout nl
                    (with_console
                       (console (print Cout (nl +:+ "--- Loaded Data Table ---" +:+ nl) st)
                          ++ List.map (fun cell => (Cout, setw_left 15 cell))
                               (headers (reader st)))
                       (print Cout (nl +:+ "--- Loaded Data Table ---" +:+ nl) st)))))
    as (out & Hrows & H1 & H2).
  cbn [print with_console reader files console] in *. rewrite Hrows.
  cbn [with_console reader files console].
  destruct (text_on_cells (headers (reader st))) as [Hc1 Hc2].
  rewrite !text_on_app, Hc1, Hc2, H1, H2. cbn [text_on same_stream].
  rewrite !append_nil_r. repeat split.
  unfold render_table. rewrite !append_assoc. reflexivity.
Qed.

(** X20: [printTable] changes neither the reader nor the files and writes
    nothing to [cerr]; what it writes to [cout] is the notice when the table
    has no row and otherwise, in this order, the title, the header cells, a
    rule of dashes, and each row on a line of its own. *)
Theorem printTable_text st :
  reader (printTable st) = reader st /\
  files (printTable st) = files st /\
  text_on Cerr (console (printTable st)) = text_on Cerr (console st) /\
  text_on Cout (console (printTable st))
  = text_on Cout (console st)
      +:+ (if bool_decide (data (reader st) = [])
           then "[INFO] No data loaded." +:+ nl
           else render_table (reader st)).
Proof. apply printTable_spec. Qed.

Lemma render_row_app cells cells' :
  render_row (cells ++ cells') = render_row cells +:+ render_row cells'.
Proof.
  induction cells as [|c cells IH]; [reflexivity|].
  cbn [app render_row]. now rewrite IH, append_assoc.
Qed.

Lemma render_row_length cells :
  narrow cells = true ->
  String.length (render_row cells) = (15 * length cells)%nat.
Proof.
  unfold narrow. induction cells as [|c cells IH]; [reflexivity|].
  cbn [forallb render_row length]. intros [Hc%Nat.leb_le Hcells]%andb_prop.
  rewrite length_append, length_setw_left, IH by assumption. lia.
Qed.

(** X21: the columns of the table line up as long as the cells are at most 15
    characters wide.  In a row, after cells that are, the next cell starts at
    15 times its position; it is written in full, followed by spaces up to
    the width 15 when it is shorter and by nothing when it is wider.  A
    header of such cells is as long as the rule under it. *)
Theorem table_columns_align before cell after :
  narrow before = true ->
  render_row (before ++ cell :: after)
  = render_row before +:+ cell +:+ fill (15 - String.length cell) " "
      +:+ render_row after /\
  String.length (render_row before) = (15 * length before)%nat /\
  String.length (cell +:+ fill (15 - String.length cell) " ")
  = Nat.max 15 (String.length cell) /\
  String.length (render_row before)
  = String.length (fill (length before * 15) "-").
Proof.
  intros Hnarrow. rewrite render_row_app. cbn [render_row]. unfold setw_left.
  rewrite append_assoc, render_row_length, length_append, !length_fill by assumption.
  repeat split; lia.
Qed.

Lemma table_columns_align_witness :
  render_row (["101"; "Electronics"] ++ "a price of more than fifteen characters" :: ["150"])
  = "101            Electronics    a price of more than fifteen characters150            "
  /\ String.length (render_row ["101"; "Electronics"]) = 30%nat.
Proof.
  destruct (table_columns_align ["101"; "Electronics"]
              "a price of more than fifteen characters" ["150"] eq_refl)
    as (Hrow & Hlen & _).
  rewrite Hrow, Hlen. split; reflexivity.
Defined.

(** ** Properties of [main] *)

Lemma calculateTotalRevenue_in_bounds st :
  data (reader st) <> [] ->
  has_column (reader st) "Price" = true ->
  has_column (reader st) "UnitsSold" = true ->
  forallb (fun row => has_cell row (price_index (reader st))
                      && has_cell row (units_index (reader st)))
    (data (reader st)) = true ->
  calculateTotalRevenue st
  = Done (with_console
            (console st
               ++ warnings (price_index (reader st)) (units_index (reader st))
                    (data (reader st))
               ++ report (sum (revenues (price_index (reader st))
                                 (units_index (reader st)) (data (reader st))))) st).
Proof.
  intros Hdata Hp Hu Hcells%forallb_has_cells.
  rewrite calculateTotalRevenue_columns by assumption.
  rewrite revenue_loop_spec by assumption. cbn. now rewrite <- app_assoc.
Qed.

Lemma mock_reader_loaded :
  ingest (text_lines mock_contents) true new_reader = mock_reader.
Proof. vm_compute. reflexivity. Qed.

Lemma mock_reader_analysis :
  warnings (price_index mock_reader) (units_index mock_reader) (data mock_reader) = [] /\
  report (sum (revenues (price_index mock_reader) (units_index mock_reader)
                 (data mock_reader)))
  = [ (Cout, "--- Analysis Result ---" +:+ nl);
      (Cout, "Total Estimated Revenue: $38283.50" +:+ nl +:+ nl) ].
Proof. vm_compute. split; reflexivity. Qed.

Lemma mock_reader_in_bounds :
  has_column mock_reader "Price" = true /\
  has_column mock_reader "UnitsSold" = true /\
  forallb (fun row => has_cell row (price_index mock_reader)
                      && has_cell row (units_index mock_reader))
    (data mock_reader) = true.
Proof. vm_compute. repeat split. Qed.

Lemma calculateTotalRevenue_mock_reader st :
  reader st = mock_reader ->
  calculateTotalRevenue st
  = Done (with_console
            (console st ++ [ (Cout, "--- Analysis Result ---" +:+ nl);
                             (Cout, "Total Estimated Revenue: $38283.50" +:+ nl +:+ nl) ])
            st).
Proof.
  intros Hr. pose proof (calculateTotalRevenue_in_bounds st) as Hcalc.
  rewrite Hr in Hcalc.
  destruct mock_reader_in_bounds as (Hp & Hu & Hcells).
  specialize (Hcalc ltac:(discriminate) Hp Hu Hcells).
  destruct mock_reader_analysis as [Hw Hrep]. now rewrite Hw, Hrep in Hcalc.
Qed.

Lemma mock_file_messages :
  "[INFO] Created mock file '" +:+ MOCK_FILENAME +:+ "' for demonstration." +:+ nl
  = "[INFO] Created mock file 'data.csv' for demonstration." +:+ nl /\
  snd (loaded_message (length (data mock_reader)) MOCK_FILENAME)
  = "[SUCCESS] Loaded 5 data rows from data.csv." +:+ nl.
Proof. vm_compute. split; reflexivity. Qed.

Lemma load_fresh_mock_file st :
  files st !! MOCK_FILENAME = None ->
  mock_creatable st = true ->
  load MOCK_FILENAME (set_reader new_reader st)
  = (true,
     {| files := <[MOCK_FILENAME := Readable mock_contents]> (files st);
        mock_creatable := mock_creatable st;
        reader := mock_reader;
        console := (console st
                      ++ [(Cout, "[INFO] Created mock file 'data.csv' for demonstration."
                                   +:+ nl)])
                     ++ [(Cout, "[SUCCESS] Loaded 5 data rows from data.csv." +:+ nl)] |}).
Proof.
  intros Hnone Hcreate.
  destruct mock_file_messages as [Hcreated Hloaded].
  assert (Hmock : createMockFile (set_reader new_reader st)
                  = print Cout ("[INFO] Created mock file 'data.csv' for demonstration." +:+ nl)
                      {| files := <[MOCK_FILENAME := Readable mock_contents]> (files st);
                         mock_creatable := mock_creatable st;
                         reader := new_reader; console := console st |}).
  { unfold createMockFile. cbn [set_reader files mock_creatable reader console].
    now rewrite Hnone, Hcreate, Hcreated. }
  assert (Hopen : open_for_reading (createMockFile (set_reader new_reader st)) MOCK_FILENAME
                  = Some mock_contents).
  { rewrite Hmock. unfold open_for_reading. cbn [print files].
    now rewrite lookup_insert_eq. }
  rewrite (load_opened_state _ _ _ Hopen), Hmock.
  cbn [set_reader print reader files mock_creatable console].
  rewrite mock_reader_loaded, Hloaded. reflexivity.
Qed.

Lemma print_and_analyse_mock_reader st :
  reader st = mock_reader ->
  exists st',
    calculateTotalRevenue (printTable st) = Done st' /\
    files st' = files st /\
    reader st' = mock_reader /\
    text_on Cerr (console st') = text_on Cerr (console st) /\
    text_on Cout (console st')
    = text_on Cout (console st)
        +:+ render_table mock_reader
        +:+ ("--- Analysis Result ---" +:+ nl)
        +:+ ("Total Estimated Revenue: $38283.50" +:+ nl +:+ nl).
Proof.
  intros Hst. destruct (printTable_spec st) as (Hr & Hf & Herr & Hout).
  rewrite Hst in Hr, Hout.
  rewrite bool_decide_eq_false_2 in Hout by discriminate.
  rewrite (calculateTotalRevenue_mock_reader _ Hr).
  eexists. split; [reflexivity|].
  unfold with_console at 1 2 3 4. cbn [files reader console].
  rewrite !text_on_app, Herr, Hout. cbn [text_on same_stream].
  rewrite !append_nil_r, !append_assoc.
  repeat split; assumption.
Qed.

(** X22: on a system without a file [data.csv], where one can be created,
    [main] creates it with the mock contents, loads its five rows, prints the
    table and the total and returns 0.  Whatever else is on the system, it
    writes to [cout] the four parts below and nothing to [cerr]. *)
Theorem main_creates_and_analyses_mock_file st :
  files st !! MOCK_FILENAME = None ->
  mock_creatable st = true ->
  exists st',
    main st = Done (0, st') /\
    files st' = <[MOCK_FILENAME := Readable mock_contents]> (files st) /\
    reader st' = mock_reader /\
    text_on Cerr (console st') = text_on Cerr (console st) /\
    text_on Cout (console st')
    = text_on Cout (console st)
        +:+ ("[INFO] Created mock file 'data.csv' for demonstration." +:+ nl)
        +:+ ("[SUCCESS] Loaded 5 data rows from data.csv." +:+ nl)
        +:+ render_table mock_reader
        +:+ ("--- Analysis Result ---" +:+ nl)
        +:+ ("Total Estimated Revenue: $38283.50" +:+ nl +:+ nl).
Proof.
  intros Hnone Hcreate. unfold main.
  rewrite (load_fresh_mock_file st Hnone Hcreate).
  match goal with |- context [printTable ?s] =>
    destruct (print_and_analyse_mock_reader s eq_refl) as (st' & Hcalc & Hf & Hr & Herr & Hout)
  end.
  rewrite Hcalc. exists st'. split; [reflexivity|].
  rewrite Hf, Hr, Herr, Hout. cbn [files console].
  rewrite !text_on_app. cbn [text_on same_stream].
  rewrite !append_nil_r, !append_assoc.
  repeat split.
Qed.

Lemma main_creates_and_analyses_mock_file_witness :
  exists st',
    main fresh_state = Done (0, st') /\
    files st' = {[ MOCK_FILENAME := Readable mock_contents ]} /\
    reader st' = mock_reader.
Proof.
  destruct (main_creates_and_analyses_mock_file fresh_state eq_refl eq_refl)
    as (st' & Hmain & Hfiles & Hreader & _).
  exists st'. rewrite Hfiles. repeat split; assumption.
Defined.

Lemma createMockFile_unavailable st :
  mock_unavailable st = true ->
  open_for_reading (createMockFile st) MOCK_FILENAME = None /\
  files (createMockFile st) = files st /\
  text_on Cout (console (createMockFile st)) = text_on Cout (console st).
Proof.
  unfold mock_unavailable, createMockFile, open_for_reading.
  destruct (files st !! MOCK_FILENAME) as [[contents|]|] eqn:E; [discriminate| |].
  - intros _. cbn [print files console]. rewrite E, text_on_app. cbn.
    now rewrite append_nil_r.
  - intros ->%negb_true_iff. cbn [print files console]. rewrite E, text_on_app. cbn.
    now rewrite append_nil_r.
Qed.

(** X23: when the mock file is there and cannot be read, or is not there and
    cannot be created, [main] still returns 0: it changes no file, writes
    nothing to [cout], and the last thing it writes to [cerr] is that the
    file could not be opened. *)
Theorem main_without_mock_file st :
  mock_unavailable st = true ->
  exists st',
    main st = Done (0, st') /\
    files st' = files st /\
    reader st' = new_reader /\
    text_on Cout (console st') = text_on Cout (console st) /\
    last (console st')
    = Some (Cerr, "[ERROR] Failed to open file: " +:+ MOCK_FILENAME +:+ nl).
Proof.
  intros Hun.
  destruct (createMockFile_unavailable (set_reader new_reader st) Hun)
    as (Hopen & Hfiles & Hout).
  unfold main, load. rewrite Hopen.
  eexists. split; [reflexivity|].
  cbn [print files reader console]. rewrite Hfiles, reader_createMockFile.
  rewrite text_on_app, Hout, last_snoc. cbn. now rewrite append_nil_r.
Qed.

Lemma main_without_mock_file_witness :
  exists st',
    main locked_mock_state = Done (0, st') /\
    files st' = files locked_mock_state /\
    text_on Cout (console st') = "earlier" +:+ nl.
Proof.
  destruct (main_without_mock_file locked_mock_state eq_refl)
    as (st' & Hmain & Hfiles & _ & Hout & _).
  exists st'. rewrite Hout. repeat split; assumption.
Defined.

(** X24: when [data.csv] is there and can be read, [main] works on the table
    of that file alone, whatever the state held before: with no row shorter
    than the header it returns 0, the reader holds the header and the rows of
    the file, and no file has changed. *)
Theorem main_reads_existing_file st contents :
  open_for_reading st MOCK_FILENAME = Some contents ->
  rectangular (table_of contents) = true ->
  exists st',
    main st = Done (0, st') /\
    reader st' = table_of contents /\
    files st' = files st.
Proof.
  intros Hopen Hrect.
  assert (Hexists : file_exists_modern (set_reader new_reader st) MOCK_FILENAME = true).
  { apply file_exists_modern_spec. unfold open_for_reading in Hopen. cbn [set_reader files].
    destruct (files st !! MOCK_FILENAME); [discriminate | discriminate]. }
  assert (Hfiles : files (createMockFile (set_reader new_reader st)) = files st)
    by now rewrite createMockFile_exists.
  assert (Hopen' : open_for_reading (createMockFile (set_reader new_reader st)) MOCK_FILENAME
                   = Some contents)
    by (unfold open_for_reading in *; now rewrite Hfiles).
  unfold main. rewrite (load_opened_state _ _ _ Hopen').
  cbn [set_reader reader]. rewrite ingest_new_reader.
  fold (non_empty_lines contents). fold (table_of contents).
  match goal with |- context [printTable ?s] => remember s as st1 eqn:Hst1 end.
  assert (Hr1 : reader st1 = table_of contents) by now subst st1.
  assert (Hf1 : files st1 = files st) by now subst st1.
  destruct (printTable_spec st1) as (Hr & Hf & _).
  destruct (calculateTotalRevenue_returns (printTable st1)) as (st' & Hcalc & Hr' & Hf').
  { now rewrite Hr, Hr1. }
  rewrite Hcalc. exists st'. split; [reflexivity|].
  now rewrite Hr', Hf', Hr, Hf, Hr1, Hf1.
Qed.

Lemma main_reads_existing_file_witness :
  exists st',
    main user_file_state = Done (0, st') /\
    reader st' = {| data := [["2.5"; "4"; "note"]; ["x"; "1"]];
                    headers := ["Price"; "UnitsSold"] |} /\
    files st' = files user_file_state.
Proof.
  exact (main_reads_existing_file user_file_state
           ("Price,UnitsSold" +:+ nl +:+ "2.5,4,note" +:+ nl +:+ nl +:+ "x,1" +:+ nl)
           eq_refl eq_refl).
Defined.
